(** * Hacker News MCP server: the four story operations of [src/server.py]

    The operations [get_top_stories], [get_new_stories], [get_story] and
    [search_stories] (and their undecorated [_http] copies) are embedded as
    computations in a small monad that threads the log of upstream HTTP
    exchanges and carries Python exceptions.  The upstream services are an
    arbitrary function from the exchanges so far and the current request to
    an outcome, so every statement below quantifies over every behaviour of
    the items API and of the search API. *)

From Stdlib Require Import ZArith String Ascii List Bool Lia DecimalString.
From Stdlib Require DecimalZ DecimalPos.
Import ListNotations.
Local Open Scope string_scope.
Local Open Scope Z_scope.

(** ** JSON values as Python sees them after [response.json()]

    [None], [bool], [int], [str], [list] and [dict].  Both APIs send integers
    only, so fractional numbers are left out of the value type.  A [str] is
    a [string]: one character per byte, which is exact for ASCII text.  A
    [dict] keeps its keys in insertion order, as Python does; a decoded
    object has no repeated key, and [dict_get] reads the first binding. *)

#[local] Set Warnings "-register-all".

Inductive json : Type :=
| JNull
| JBool (b : bool)
| JInt (n : Z)
| JStr (s : string)
| JList (items : list json)
| JDict (fields : list (string * json)).

Definition dict := list (string * json).

(** [d.get(key, default)] on a [dict]. *)
Fixpoint dict_get (d : dict) (key : string) (default : json) : json :=
  match d with
  | [] => default
  | (k, v) :: rest => if String.eqb k key then v else dict_get rest key default
  end.

(** [key in d]. *)
Fixpoint dict_has (d : dict) (key : string) : bool :=
  match d with
  | [] => false
  | (k, _) :: rest => if String.eqb k key then true else dict_has rest key
  end.

(** Truth value of an object: [None], [False], [0], [''], [[]] and [{}] are
    false, everything else is true. *)
Definition py_truthy (v : json) : bool :=
  match v with
  | JNull => false
  | JBool b => b
  | JInt n => negb (n =? 0)
  | JStr s => negb (String.eqb s "")
  | JList items => match items with [] => false | _ :: _ => true end
  | JDict fields => match fields with [] => false | _ :: _ => true end
  end.

(** [x and y], [x or y]: the operand that decides the result is returned. *)
Definition py_and (x y : json) : json := if py_truthy x then y else x.
Definition py_or (x y : json) : json := if py_truthy x then x else y.

(** [v == s] for a string literal [s]: only an equal [str] compares equal. *)
Definition py_eq_str (v : json) (s : string) : bool :=
  match v with
  | JStr t => String.eqb t s
  | _ => false
  end.

(** [type(v).__name__], as it appears in the interpreter's error messages. *)
Definition type_name (v : json) : string :=
  match v with
  | JNull => "NoneType"
  | JBool _ => "bool"
  | JInt _ => "int"
  | JStr _ => "str"
  | JList _ => "list"
  | JDict _ => "dict"
  end.

(** *** [str] and [repr] *)

(** [str(n)] for an [int]: decimal digits, a minus sign when negative. *)
Definition str_int (n : Z) : string := NilZero.string_of_int (Z.to_int n).

Definition hex_digit (n : nat) : ascii :=
  nth n (list_ascii_of_string "0123456789abcdef") "0"%char.

Fixpoint contains_char (c : ascii) (s : string) : bool :=
  match s with
  | EmptyString => false
  | String a rest => if Ascii.eqb a c then true else contains_char c rest
  end.

(** One character of [repr] of a [str] delimited by [quote].  Characters
    above 127 are bytes of an encoded printable character and are kept. *)
Definition repr_char (quote c : ascii) : string :=
  let n := nat_of_ascii c in
  if Ascii.eqb c "\"%char then "\\"
  else if Ascii.eqb c quote then String "\"%char (String c "")
  else if Nat.eqb n 10 then "\n"
  else if Nat.eqb n 13 then "\r"
  else if Nat.eqb n 9 then "\t"
  else if (Nat.ltb n 32 || Nat.eqb n 127)%bool
       then String "\"%char (String "x"%char
              (String (hex_digit (Nat.div n 16)) (String (hex_digit (Nat.modulo n 16)) "")))
  else String c "".

Fixpoint repr_chars (quote : ascii) (s : string) : string :=
  match s with
  | EmptyString => ""
  | String c rest => repr_char quote c ++ repr_chars quote rest
  end.

(** [repr(s)]: single quotes, unless [s] has a single quote and no double
    quote. *)
Definition repr_str (s : string) : string :=
  let quote : ascii :=
    if (contains_char "'"%char s && negb (contains_char (ascii_of_nat 34) s))%bool
    then ascii_of_nat 34 else "'"%char in
  String quote (repr_chars quote s ++ String quote "").

Fixpoint py_repr (v : json) : string :=
  match v with
  | JNull => "None"
  | JBool true => "True"
  | JBool false => "False"
  | JInt n => str_int n
  | JStr s => repr_str s
  | JList items => "[" ++ String.concat ", " (map py_repr items) ++ "]"
  | JDict fields =>
      "{" ++ String.concat ", "
               (map (fun kv => let '(k, x) := kv in repr_str k ++ ": " ++ py_repr x) fields)
          ++ "}"
  end.

(** [str(v)], also what an f-string field [{v}] inserts. *)
Definition py_str (v : json) : string :=
  match v with
  | JStr s => s
  | _ => py_repr v
  end.

(** ** Exceptions *)

(** The classes that the operations can meet.  [RequestError] is
    [httpx.RequestError] (connection failures and timeouts); the others are
    caught by [except Exception] only. *)
Inductive Exception : Type :=
| RequestError (msg : string)
| HTTPStatusError (msg : string)
| JSONDecodeError (msg : string)
| InvalidURL (msg : string)
| TypeError (msg : string)
| KeyError (msg : string)
| AttributeError (msg : string).

(** [str(e)]. *)
Definition str_exc (e : Exception) : string :=
  match e with
  | RequestError msg | HTTPStatusError msg | JSONDecodeError msg | InvalidURL msg
  | TypeError msg | KeyError msg | AttributeError msg => msg
  end.

(** ** The upstream services and the monad of operations *)

(** One call [httpx.get(url, params=params, timeout=timeout)]; [timeout] in
    seconds. *)
Record Request : Type := {
  url : string;
  params : dict;
  timeout : Z
}.

(** A received response: [status_error] is [Some msg] when the status is not
    a success, so that [raise_for_status()] raises with [msg]; [body] is the
    decoded document, or the message of the decoding error that [json()]
    raises. *)
Record Response : Type := {
  status_error : option string;
  body : string + json
}.

(** What a call gives: [httpx.get] raises (a [RequestError] for a failure
    of the transport, any other class for a request it refuses to send) or
    returns a response. *)
Inductive Outcome : Type :=
| Raises (e : Exception)
| Responds (r : Response).

Definition Event : Type := Request * Outcome.

(** The upstream services: they answer a request knowing the exchanges that
    came before it. *)
Definition Upstream : Type := list Event -> Request -> Outcome.

(** A computation reads the upstream, extends the log of exchanges and ends
    with a value or a raised exception. *)
Definition M (A : Type) : Type :=
  Upstream -> list Event -> (Exception + A) * list Event.

Definition ret {A : Type} (x : A) : M A :=
  fun _ log => (inr x, log).

Definition bind {A B : Type} (m : M A) (k : A -> M B) : M B :=
  fun up log =>
    match m up log with
    | (inr x, log') => k x up log'
    | (inl e, log') => (inl e, log')
    end.

Definition raise {A : Type} (e : Exception) : M A :=
  fun _ log => (inl e, log).

Notation "x <- m ;; k" := (bind m (fun x => k))
  (at level 61, m at next level, right associativity).
Notation "m ;;; k" := (bind m (fun _ => k))
  (at level 61, right associativity).

(** [try: body  except httpx.RequestError as e: h1(str(e))
    except Exception as e: h2(str(e))]. *)
Definition try_except {A : Type} (body : M A) (on_request_error on_exception : string -> M A)
  : M A :=
  fun up log =>
    match body up log with
    | (inr x, log') => (inr x, log')
    | (inl (RequestError msg), log') => on_request_error msg up log'
    | (inl e, log') => on_exception (str_exc e) up log'
    end.

(** [for x in xs: s = body(x, s)]. *)
Fixpoint for_each {S : Type} (xs : list json) (body : json -> S -> M S) (s : S) : M S :=
  match xs with
  | [] => ret s
  | x :: rest => s' <- body x s ;; for_each rest body s'
  end.

(** [httpx.get]: the exchange is logged; what the call raises is raised. *)
Definition httpx_get (u : string) (p : dict) (t : Z) : M Response :=
  fun up log =>
    let req := {| url := u; params := p; timeout := t |} in
    let out := up log req in
    match out with
    | Raises e => (inl e, log ++ [(req, out)])%list
    | Responds r => (inr r, log ++ [(req, out)])%list
    end.

(** [response.raise_for_status()]. *)
Definition raise_for_status (r : Response) : M unit :=
  match status_error r with
  | Some msg => raise (HTTPStatusError msg)
  | None => ret tt
  end.

(** [response.json()]. *)
Definition response_json (r : Response) : M json :=
  match body r with
  | inl msg => raise (JSONDecodeError msg)
  | inr doc => ret doc
  end.

(** ** Python operations on decoded values that can raise *)

(** [xs[:n]] on a sequence of length [len]: how many leading elements. *)
Definition slice_stop (len : nat) (n : Z) : nat :=
  if n <? 0 then Z.to_nat (Z.max 0 (Z.of_nat len + n)) else Z.to_nat n.

Fixpoint string_firstn (k : nat) (s : string) : string :=
  match k, s with
  | O, _ => ""
  | S _, EmptyString => ""
  | S k', String c rest => String c (string_firstn k' rest)
  end.

(** [v[:n]]: lists and strings are sliced; a dict is looked up with the
    slice as key and has no such key (interpreter 3.12 and later); the other
    types are not subscriptable. *)
Definition py_slice_to (v : json) (n : Z) : M json :=
  match v with
  | JList items => ret (JList (firstn (slice_stop (List.length items) n) items))
  | JStr s => ret (JStr (string_firstn (slice_stop (String.length s) n) s))
  | JDict _ => raise (KeyError ("slice(None, " ++ str_int n ++ ", None)"))
  | _ => raise (TypeError ("'" ++ type_name v ++ "' object is not subscriptable"))
  end.

(** The elements that [for x in v] visits: the items of a list, the
    characters of a string, the keys of a dict. *)
Definition py_iter (v : json) : M (list json) :=
  match v with
  | JList items => ret items
  | JStr s => ret (map (fun c => JStr (String c "")) (list_ascii_of_string s))
  | JDict fields => ret (map (fun kv => JStr (fst kv)) fields)
  | _ => raise (TypeError ("'" ++ type_name v ++ "' object is not iterable"))
  end.

(** The receiver of [v.get(...)]: only a [dict] has the method.  Every
    record below calls [get] first on the value it then keeps reading, so the
    later calls on the same value cannot raise. *)
Definition with_get (v : json) : M dict :=
  match v with
  | JDict fields => ret fields
  | _ => raise (AttributeError ("'" ++ type_name v ++ "' object has no attribute 'get'"))
  end.

(** The text [json.dumps(doc, indent=indent)], kept as the document it
    serialises. *)
Inductive JsonText : Type :=
| json_dumps (doc : json) (indent : Z).

(** ** The operations

    Each definition follows its function of [server.py] statement by
    statement.  A function argument declared [int] is a [Z]. *)

Definition HN_API_BASE : string := "https://hacker-news.firebaseio.com/v0".

(** *** The undecorated functions, called by the HTTP endpoint *)

Definition get_top_stories_http (limit : Z) : M JsonText :=
  try_except
    (let limit := Z.min (Z.max limit 1) 30 in
     response <- httpx_get (HN_API_BASE ++ "/topstories.json") [] 10 ;;
     raise_for_status response ;;;
     listing <- response_json response ;;
     story_ids <- py_slice_to listing limit ;;
     ids <- py_iter story_ids ;;
     stories <- for_each ids (fun story_id stories =>
       story_response <-
         httpx_get (HN_API_BASE ++ "/item/" ++ py_str story_id ++ ".json") [] 5 ;;
       raise_for_status story_response ;;;
       story <- response_json story_response ;;
       if py_truthy story then
         story <- with_get story ;;
         if py_eq_str (dict_get story "type" JNull) "story" then
           ret (stories ++ [JDict [
             ("id", dict_get story "id" JNull);
             ("title", dict_get story "title" (JStr ""));
             ("url", dict_get story "url"
                       (JStr ("https://news.ycombinator.com/item?id=" ++ py_str story_id)));
             ("score", dict_get story "score" (JInt 0));
             ("author", dict_get story "by" (JStr ""));
             ("comments", dict_get story "descendants" (JInt 0));
             ("time", dict_get story "time" (JInt 0));
             ("time_iso", py_or (py_and (dict_get story "time" JNull)
                                        (JStr (py_str (dict_get story "time" JNull))))
                                JNull)]])%list
         else ret stories
       else ret stories) [] ;;
     ret (json_dumps (JList stories) 2))
    (fun e => ret (json_dumps (JDict [("error", JStr ("Request failed: " ++ e))]) 2))
    (fun e => ret (json_dumps (JDict [("error", JStr ("Unexpected error: " ++ e))]) 2)).

Definition get_new_stories_http (limit : Z) : M JsonText :=
  try_except
    (let limit := Z.min (Z.max limit 1) 30 in
     response <- httpx_get (HN_API_BASE ++ "/newstories.json") [] 10 ;;
     raise_for_status response ;;;
     listing <- response_json response ;;
     story_ids <- py_slice_to listing limit ;;
     ids <- py_iter story_ids ;;
     stories <- for_each ids (fun story_id stories =>
       story_response <-
         httpx_get (HN_API_BASE ++ "/item/" ++ py_str story_id ++ ".json") [] 5 ;;
       raise_for_status story_response ;;;
       story <- response_json story_response ;;
       if py_truthy story then
         story <- with_get story ;;
         if py_eq_str (dict_get story "type" JNull) "story" then
           ret (stories ++ [JDict [
             ("id", dict_get story "id" JNull);
             ("title", dict_get story "title" (JStr ""));
             ("url", dict_get story "url"
                       (JStr ("https://news.ycombinator.com/item?id=" ++ py_str story_id)));
             ("score", dict_get story "score" (JInt 0));
             ("author", dict_get story "by" (JStr ""));
             ("time", dict_get story "time" (JInt 0));
             ("time_iso", py_or (py_and (dict_get story "time" JNull)
                                        (JStr (py_str (dict_get story "time" JNull))))
                                JNull)]])%list
         else ret stories
       else ret stories) [] ;;
     ret (json_dumps (JList stories) 2))
    (fun e => ret (json_dumps (JDict [("error", JStr ("Request failed: " ++ e))]) 2))
    (fun e => ret (json_dumps (JDict [("error", JStr ("Unexpected error: " ++ e))]) 2)).

Definition get_story_http (story_id : Z) : M JsonText :=
  try_except
    (response <- httpx_get (HN_API_BASE ++ "/item/" ++ str_int story_id ++ ".json") [] 10 ;;
     raise_for_status response ;;;
     story <- response_json response ;;
     if negb (py_truthy story) then
       ret (json_dumps (JDict [("error", JStr ("Story " ++ str_int story_id ++ " not found"))]) 2)
     else
       story <- with_get story ;;
       if negb (py_eq_str (dict_get story "type" JNull) "story") then
         ret (json_dumps
                (JDict [("error", JStr ("Item " ++ str_int story_id ++ " is not a story"))]) 2)
       else
         let formatted_story := JDict [
           ("id", dict_get story "id" JNull);
           ("title", dict_get story "title" (JStr ""));
           ("url", dict_get story "url"
                     (JStr ("https://news.ycombinator.com/item?id=" ++ str_int story_id)));
           ("score", dict_get story "score" (JInt 0));
           ("author", dict_get story "by" (JStr ""));
           ("comments", dict_get story "descendants" (JInt 0));
           ("time", dict_get story "time" (JInt 0));
           ("text", dict_get story "text" (JStr ""));
           ("kids", dict_get story "kids" (JList []))] in
         ret (json_dumps formatted_story 2))
    (fun e => ret (json_dumps (JDict [("error", JStr ("Request failed: " ++ e))]) 2))
    (fun e => ret (json_dumps (JDict [("error", JStr ("Unexpected error: " ++ e))]) 2)).

Definition search_stories_http (query : string) (limit : Z) : M JsonText :=
  try_except
    (let limit := Z.min (Z.max limit 1) 20 in
     let search_url := "https://hn.algolia.com/api/v1/search" in
     let params := [("query", JStr query); ("tags", JStr "story"); ("hitsPerPage", JInt limit)] in
     response <- httpx_get search_url params 10 ;;
     raise_for_status response ;;;
     data <- response_json response ;;
     data <- with_get data ;;
     hits <- py_iter (dict_get data "hits" (JList [])) ;;
     stories <- for_each hits (fun hit stories =>
       hit <- with_get hit ;;
       ret (stories ++ [JDict [
         ("id", dict_get hit "objectID" JNull);
         ("title", dict_get hit "title" (JStr ""));
         ("url", dict_get hit "url"
                   (JStr ("https://news.ycombinator.com/item?id="
                            ++ py_str (dict_get hit "objectID" JNull))));
         ("score", dict_get hit "points" (JInt 0));
         ("author", dict_get hit "author" (JStr ""));
         ("comments", dict_get hit "num_comments" (JInt 0));
         ("time", dict_get hit "created_at_i" (JInt 0));
         ("time_iso", dict_get hit "created_at" (JStr ""))]])%list) [] ;;
     ret (json_dumps (JList stories) 2))
    (fun e => ret (json_dumps (JDict [("error", JStr ("Request failed: " ++ e))]) 2))
    (fun e => ret (json_dumps (JDict [("error", JStr ("Unexpected error: " ++ e))]) 2)).

(** *** The functions registered as tools

    [@mcp.tool()] registers the function that follows it; the definitions
    below are the bodies of those functions. *)

Definition get_top_stories (limit : Z) : M JsonText :=
  try_except
    (let limit := Z.min (Z.max limit 1) 30 in
     response <- httpx_get (HN_API_BASE ++ "/topstories.json") [] 10 ;;
     raise_for_status response ;;;
     listing <- response_json response ;;
     story_ids <- py_slice_to listing limit ;;
     ids <- py_iter story_ids ;;
     stories <- for_each ids (fun story_id stories =>
       story_response <-
         httpx_get (HN_API_BASE ++ "/item/" ++ py_str story_id ++ ".json") [] 5 ;;
       raise_for_status story_response ;;;
       story <- response_json story_response ;;
       if py_truthy story then
         story <- with_get story ;;
         if py_eq_str (dict_get story "type" JNull) "story" then
           ret (stories ++ [JDict [
             ("id", dict_get story "id" JNull);
             ("title", dict_get story "title" (JStr ""));
             ("url", dict_get story "url"
                       (JStr ("https://news.ycombinator.com/item?id=" ++ py_str story_id)));
             ("score", dict_get story "score" (JInt 0));
             ("author", dict_get story "by" (JStr ""));
             ("comments", dict_get story "descendants" (JInt 0));
             ("time", dict_get story "time" (JInt 0));
             ("time_iso", py_or (py_and (dict_get story "time" JNull)
                                        (JStr (py_str (dict_get story "time" JNull))))
                                JNull)]])%list
         else ret stories
       else ret stories) [] ;;
     ret (json_dumps (JList stories) 2))
    (fun e => ret (json_dumps (JDict [("error", JStr ("Request failed: " ++ e))]) 2))
    (fun e => ret (json_dumps (JDict [("error", JStr ("Unexpected error: " ++ e))]) 2)).

Definition get_story (story_id : Z) : M JsonText :=
  try_except
    (response <- httpx_get (HN_API_BASE ++ "/item/" ++ str_int story_id ++ ".json") [] 10 ;;
     raise_for_status response ;;;
     story <- response_json response ;;
     if negb (py_truthy story) then
       ret (json_dumps (JDict [("error", JStr ("Story " ++ str_int story_id ++ " not found"))]) 2)
     else
       story <- with_get story ;;
       if negb (py_eq_str (dict_get story "type" JNull) "story") then
         ret (json_dumps
                (JDict [("error", JStr ("Item " ++ str_int story_id ++ " is not a story"))]) 2)
       else
         let formatted_story := JDict [
           ("id", dict_get story "id" JNull);
           ("title", dict_get story "title" (JStr ""));
           ("url", dict_get story "url"
                     (JStr ("https://news.ycombinator.com/item?id=" ++ str_int story_id)));
           ("score", dict_get story "score" (JInt 0));
           ("author", dict_get story "by" (JStr ""));
           ("comments", dict_get story "descendants" (JInt 0));
           ("time", dict_get story "time" (JInt 0));
           ("text", dict_get story "text" (JStr ""));
           ("kids", dict_get story "kids" (JList []))] in
         ret (json_dumps formatted_story 2))
    (fun e => ret (json_dumps (JDict [("error", JStr ("Request failed: " ++ e))]) 2))
    (fun e => ret (json_dumps (JDict [("error", JStr ("Unexpected error: " ++ e))]) 2)).

Definition get_new_stories (limit : Z) : M JsonText :=
  try_except
    (let limit := Z.min (Z.max limit 1) 30 in
     response <- httpx_get (HN_API_BASE ++ "/newstories.json") [] 10 ;;
     raise_for_status response ;;;
     listing <- response_json response ;;
     story_ids <- py_slice_to listing limit ;;
     ids <- py_iter story_ids ;;
     stories <- for_each ids (fun story_id stories =>
       story_response <-
         httpx_get (HN_API_BASE ++ "/item/" ++ py_str story_id ++ ".json") [] 5 ;;
       raise_for_status story_response ;;;
       story <- response_json story_response ;;
       if py_truthy story then
         story <- with_get story ;;
         if py_eq_str (dict_get story "type" JNull) "story" then
           ret (stories ++ [JDict [
             ("id", dict_get story "id" JNull);
             ("title", dict_get story "title" (JStr ""));
             ("url", dict_get story "url"
                       (JStr ("https://news.ycombinator.com/item?id=" ++ py_str story_id)));
             ("score", dict_get story "score" (JInt 0));
             ("author", dict_get story "by" (JStr ""));
             ("time", dict_get story "time" (JInt 0));
             ("time_iso", py_or (py_and (dict_get story "time" JNull)
                                        (JStr (py_str (dict_get story "time" JNull))))
                                JNull)]])%list
         else ret stories
       else ret stories) [] ;;
     ret (json_dumps (JList stories) 2))
    (fun e => ret (json_dumps (JDict [("error", JStr ("Request failed: " ++ e))]) 2))
    (fun e => ret (json_dumps (JDict [("error", JStr ("Unexpected error: " ++ e))]) 2)).

Definition search_stories (query : string) (limit : Z) : M JsonText :=
  try_except
    (let limit := Z.min (Z.max limit 1) 20 in
     let search_url := "https://hn.algolia.com/api/v1/search" in
     let params := [("query", JStr query); ("tags", JStr "story"); ("hitsPerPage", JInt limit)] in
     response <- httpx_get search_url params 10 ;;
     raise_for_status response ;;;
     data <- response_json response ;;
     data <- with_get data ;;
     hits <- py_iter (dict_get data "hits" (JList [])) ;;
     stories <- for_each hits (fun hit stories =>
       hit <- with_get hit ;;
       ret (stories ++ [JDict [
         ("id", dict_get hit "objectID" JNull);
         ("title", dict_get hit "title" (JStr ""));
         ("url", dict_get hit "url"
                   (JStr ("https://news.ycombinator.com/item?id="
                            ++ py_str (dict_get hit "objectID" JNull))));
         ("score", dict_get hit "points" (JInt 0));
         ("author", dict_get hit "author" (JStr ""));
         ("comments", dict_get hit "num_comments" (JInt 0));
         ("time", dict_get hit "created_at_i" (JInt 0));
         ("time_iso", dict_get hit "created_at" (JStr ""))]])%list) [] ;;
     ret (json_dumps (JList stories) 2))
    (fun e => ret (json_dumps (JDict [("error", JStr ("Request failed: " ++ e))]) 2))
    (fun e => ret (json_dumps (JDict [("error", JStr ("Unexpected error: " ++ e))]) 2)).

(** Running an operation from an empty log. *)
Definition run {A : Type} (m : M A) (up : Upstream) : (Exception + A) * list Event :=
  m up [].

(** ** Vocabulary of the statements *)

(** The requests that the operations issue. *)
Definition listing_request (path : string) : Request :=
  {| url := HN_API_BASE ++ path; params := []; timeout := 10 |}.

Definition item_request (story_id : json) : Request :=
  {| url := HN_API_BASE ++ "/item/" ++ py_str story_id ++ ".json"; params := []; timeout := 5 |}.

Definition story_request (story_id : Z) : Request :=
  {| url := HN_API_BASE ++ "/item/" ++ str_int story_id ++ ".json"; params := []; timeout := 10 |}.

Definition search_request (query : string) (hits_per_page : Z) : Request :=
  {| url := "https://hn.algolia.com/api/v1/search";
     params := [("query", JStr query); ("tags", JStr "story"); ("hitsPerPage", JInt hits_per_page)];
     timeout := 10 |}.

(** A successful response carrying the document [doc]. *)
Definition answered (doc : json) : Outcome :=
  Responds {| status_error := None; body := inr doc |}.

(** An upstream call that failed: [httpx.get] raised, or the status of the
    response is not a success. *)
Definition failed (ev : Event) : bool :=
  match snd ev with
  | Raises _ => true
  | Responds r => match status_error r with Some _ => true | None => false end
  end.

(** The error document [{"error": msg}] as the operations serialise it. *)
Definition error_payload (msg : string) : JsonText :=
  json_dumps (JDict [("error", JStr msg)]) 2.

(** The dict literals of the four operations. *)
Definition time_iso_of (time : json) : json :=
  py_or (py_and time (JStr (py_str time))) JNull.

Definition top_record (story_id : json) (story : dict) : json :=
  JDict [
    ("id", dict_get story "id" JNull);
    ("title", dict_get story "title" (JStr ""));
    ("url", dict_get story "url"
              (JStr ("https://news.ycombinator.com/item?id=" ++ py_str story_id)));
    ("score", dict_get story "score" (JInt 0));
    ("author", dict_get story "by" (JStr ""));
    ("comments", dict_get story "descendants" (JInt 0));
    ("time", dict_get story "time" (JInt 0));
    ("time_iso", time_iso_of (dict_get story "time" JNull))].

Definition new_record (story_id : json) (story : dict) : json :=
  JDict [
    ("id", dict_get story "id" JNull);
    ("title", dict_get story "title" (JStr ""));
    ("url", dict_get story "url"
              (JStr ("https://news.ycombinator.com/item?id=" ++ py_str story_id)));
    ("score", dict_get story "score" (JInt 0));
    ("author", dict_get story "by" (JStr ""));
    ("time", dict_get story "time" (JInt 0));
    ("time_iso", time_iso_of (dict_get story "time" JNull))].

Definition single_record (story_id : Z) (story : dict) : json :=
  JDict [
    ("id", dict_get story "id" JNull);
    ("title", dict_get story "title" (JStr ""));
    ("url", dict_get story "url"
              (JStr ("https://news.ycombinator.com/item?id=" ++ str_int story_id)));
    ("score", dict_get story "score" (JInt 0));
    ("author", dict_get story "by" (JStr ""));
    ("comments", dict_get story "descendants" (JInt 0));
    ("time", dict_get story "time" (JInt 0));
    ("text", dict_get story "text" (JStr ""));
    ("kids", dict_get story "kids" (JList []))].

Definition hit_record (hit : dict) : json :=
  JDict [
    ("id", dict_get hit "objectID" JNull);
    ("title", dict_get hit "title" (JStr ""));
    ("url", dict_get hit "url"
              (JStr ("https://news.ycombinator.com/item?id="
                       ++ py_str (dict_get hit "objectID" JNull))));
    ("score", dict_get hit "points" (JInt 0));
    ("author", dict_get hit "author" (JStr ""));
    ("comments", dict_get hit "num_comments" (JInt 0));
    ("time", dict_get hit "created_at_i" (JInt 0));
    ("time_iso", dict_get hit "created_at" (JStr ""))].

(** Whether a fetched item is of type story. *)
Definition is_story (doc : json) : bool :=
  match doc with
  | JDict d => py_eq_str (dict_get d "type" JNull) "story"
  | _ => false
  end.

(** What a fetched item contributes to a listing: its record when it is a
    story, nothing otherwise. *)
Definition selected (record : json -> dict -> json) (fetched : json * json) : list json :=
  match snd fetched with
  | JDict d => if py_eq_str (dict_get d "type" JNull) "story" then [record (fst fetched) d] else []
  | _ => []
  end.

(** The exchange in which the item [story_id] was fetched and [doc] came
    back. *)
Definition item_exchange (fetched : json * json) : Event :=
  (item_request (fst fetched), answered (snd fetched)).

(** Reading a field of an output record. *)
Definition field (key : string) (record : json) : json :=
  match record with
  | JDict d => dict_get d key JNull
  | _ => JNull
  end.

(** ** The two listing operations as one scheme

    [listing_op] is the common shape of the four listing functions; each of
    them is an instance, by computation. *)

Definition item_step (record : json -> dict -> json) (story_id : json) (stories : list json)
  : M (list json) :=
  story_response <- httpx_get (HN_API_BASE ++ "/item/" ++ py_str story_id ++ ".json") [] 5 ;;
  raise_for_status story_response ;;;
  story <- response_json story_response ;;
  if py_truthy story then
    story <- with_get story ;;
    if py_eq_str (dict_get story "type" JNull) "story" then
      ret (stories ++ [record story_id story])%list
    else ret stories
  else ret stories.

Definition listing_body (path : string) (record : json -> dict -> json) (limit : Z)
  : M JsonText :=
  response <- httpx_get (HN_API_BASE ++ path) [] 10 ;;
  raise_for_status response ;;;
  listing <- response_json response ;;
  story_ids <- py_slice_to listing limit ;;
  ids <- py_iter story_ids ;;
  stories <- for_each ids (item_step record) [] ;;
  ret (json_dumps (JList stories) 2).

Definition listing_op (path : string) (record : json -> dict -> json) (limit : Z)
  : M JsonText :=
  try_except
    (listing_body path record (Z.min (Z.max limit 1) 30))
    (fun e => ret (error_payload ("Request failed: " ++ e)))
    (fun e => ret (error_payload ("Unexpected error: " ++ e))).

(** The search operation and the single-story operation, named the same
    way. *)

Definition hit_step (hit : json) (stories : list json) : M (list json) :=
  hit <- with_get hit ;;
  ret (stories ++ [hit_record hit])%list.

Definition search_body (query : string) (limit : Z) : M JsonText :=
  response <- httpx_get "https://hn.algolia.com/api/v1/search"
                [("query", JStr query); ("tags", JStr "story"); ("hitsPerPage", JInt limit)] 10 ;;
  raise_for_status response ;;;
  data <- response_json response ;;
  data <- with_get data ;;
  hits <- py_iter (dict_get data "hits" (JList [])) ;;
  stories <- for_each hits hit_step [] ;;
  ret (json_dumps (JList stories) 2).

Definition search_op (query : string) (limit : Z) : M JsonText :=
  try_except
    (search_body query (Z.min (Z.max limit 1) 20))
    (fun e => ret (error_payload ("Request failed: " ++ e)))
    (fun e => ret (error_payload ("Unexpected error: " ++ e))).

Definition story_body (story_id : Z) : M JsonText :=
  response <- httpx_get (HN_API_BASE ++ "/item/" ++ str_int story_id ++ ".json") [] 10 ;;
  raise_for_status response ;;;
  story <- response_json response ;;
  if negb (py_truthy story) then
    ret (error_payload ("Story " ++ str_int story_id ++ " not found"))
  else
    story <- with_get story ;;
    if negb (py_eq_str (dict_get story "type" JNull) "story") then
      ret (error_payload ("Item " ++ str_int story_id ++ " is not a story"))
    else ret (json_dumps (single_record story_id story) 2).

Definition story_op (story_id : Z) : M JsonText :=
  try_except
    (story_body story_id)
    (fun e => ret (error_payload ("Request failed: " ++ e)))
    (fun e => ret (error_payload ("Unexpected error: " ++ e))).

(** ** Failures

    [failure ev] is the exception that the exchange [ev] makes the operation
    raise: the one that [httpx.get] raised, or the [HTTPStatusError] of a
    status that is not a success. *)
Definition failure (ev : Event) : option Exception :=
  match snd ev with
  | Raises e => Some e
  | Responds r =>
      match status_error r with
      | Some msg => Some (HTTPStatusError msg)
      | None => None
      end
  end.

Definition clean (log : list Event) : Prop :=
  Forall (fun ev => failure ev = None) log.

(** The outcome of a computation fails fast when its log has no failed
    exchange, or has exactly one, the last, and the computation raised the
    exception of that exchange. *)
Definition fail_fast {A : Type} (res : (Exception + A) * list Event) : Prop :=
  clean (snd res) \/
  exists log0 ev e,
    snd res = (log0 ++ [ev])%list /\ clean log0 /\ failure ev = Some e /\ fst res = inl e.

Definition fails_fast {A : Type} (m : M A) : Prop :=
  forall up log, clean log -> fail_fast (m up log).

(** The message that the handlers put in the error document. *)
Definition error_message (e : Exception) : string :=
  match e with
  | RequestError msg => "Request failed: " ++ msg
  | _ => "Unexpected error: " ++ str_exc e
  end.

Definition guarded (body : M JsonText) : M JsonText :=
  try_except body
    (fun e => ret (error_payload ("Request failed: " ++ e)))
    (fun e => ret (error_payload ("Unexpected error: " ++ e))).

(** The ids that the loop of a listing operation visits, for a listing
    document [listing] and a count [n]: none when slicing or iterating
    raises. *)
Definition visited (listing : json) (n : Z) : list json :=
  match listing with
  | JList items => firstn (slice_stop (List.length items) n) items
  | JStr s =>
      map (fun c => JStr (String c ""))
          (list_ascii_of_string (string_firstn (slice_stop (String.length s) n) s))
  | _ => []
  end.

(** The count that a listing operation uses, as a number of ids. *)
Definition listing_count (limit : Z) : nat := Z.to_nat (Z.min (Z.max limit 1) 30).

(** ** Dispatch

    A call of one of the four tools.  [http] is the dispatch of the
    endpoint ([tools/call]) to the undecorated functions; [tool] is the same
    call made on the registered functions. *)
Inductive Call : Type :=
| TopStories (limit : Z)
| NewStories (limit : Z)
| Story (story_id : Z)
| Search (query : string) (limit : Z).

Definition http (c : Call) : M JsonText :=
  match c with
  | TopStories limit => get_top_stories_http limit
  | NewStories limit => get_new_stories_http limit
  | Story story_id => get_story_http story_id
  | Search query limit => search_stories_http query limit
  end.

Definition tool (c : Call) : M JsonText :=
  match c with
  | TopStories limit => get_top_stories limit
  | NewStories limit => get_new_stories limit
  | Story story_id => get_story story_id
  | Search query limit => search_stories query limit
  end.

(** The body of a call, inside its [try]. *)
Definition body_of (c : Call) : M JsonText :=
  match c with
  | TopStories limit => listing_body "/topstories.json" top_record (Z.min (Z.max limit 1) 30)
  | NewStories limit => listing_body "/newstories.json" new_record (Z.min (Z.max limit 1) 30)
  | Story story_id => story_body story_id
  | Search query limit => search_body query (Z.min (Z.max limit 1) 20)
  end.

(** The object behind a fetched item ([{}] for anything else). *)
Definition fields_of (doc : json) : dict :=
  match doc with
  | JDict d => d
  | _ => []
  end.

(** The keys of a record, in order. *)
Definition keys (record : json) : list string :=
  match record with
  | JDict d => map fst d
  | _ => []
  end.

(** ** Sample upstreams

    The items API of the examples: the top listing is [1, ..., 6], item 3 is
    a job, the others are stories, every other id is unknown ([null]); the
    search API answers with two hits. *)
Definition sample_item (i : Z) : json :=
  JDict [("id", JInt i);
         ("type", JStr (if i =? 3 then "job" else "story"));
         ("title", JStr ("Story " ++ str_int i))].

Definition sample_item_of (story_id : json) : json :=
  match story_id with
  | JInt i => if ((1 <=? i) && (i <=? 6))%bool then sample_item i else JNull
  | _ => JNull
  end.

Definition sample_hits : list dict :=
  [[("objectID", JStr "101"); ("title", JStr "Rust 1.0"); ("points", JInt 7);
    ("created_at", JStr "2015-05-15T00:00:00Z"); ("created_at_i", JInt 1431648000)];
   [("objectID", JStr "102"); ("title", JStr "Why Rust")]].

Definition sample_upstream : Upstream :=
  fun _ req =>
    if String.eqb (url req) (HN_API_BASE ++ "/topstories.json") then
      answered (JList (map JInt [1; 2; 3; 4; 5; 6]))
    else if String.eqb (url req) (HN_API_BASE ++ "/newstories.json") then
      answered (JList (map JInt [6; 5; 4; 3; 2; 1]))
    else if String.eqb (url req) "https://hn.algolia.com/api/v1/search" then
      answered (JDict [("hits", JList (map JDict sample_hits))])
    else
      match find (fun i => String.eqb (url req) (url (item_request (JInt i))))
                 [1; 2; 3; 4; 5; 6] with
      | Some i => answered (sample_item i)
      | None => answered JNull
      end.

(** The same services, with the connection timing out on item 4. *)
Definition flaky_upstream : Upstream :=
  fun log req =>
    if String.eqb (url req) (url (item_request (JInt 4))) then Raises (RequestError "timed out")
    else sample_upstream log req.

(** ** Faults

    [fault ev] is the exception that the exchange [ev] makes the fetch
    raise: what [httpx.get] raised, the [HTTPStatusError] of a status that is
    not a success, or the decoding error of a body that is not JSON. *)
Definition fault (ev : Event) : option Exception :=
  match snd ev with
  | Raises e => Some e
  | Responds r =>
      match status_error r with
      | Some msg => Some (HTTPStatusError msg)
      | None =>
          match body r with
          | inl msg => Some (JSONDecodeError msg)
          | inr _ => None
          end
      end
  end.

Definition sound (log : list Event) : Prop :=
  Forall (fun ev => fault ev = None) log.

(** The log has no fault, or has exactly one, in its last exchange, and the
    computation raised the exception of that fault. *)
Definition stops_at_fault {A : Type} (res : (Exception + A) * list Event) : Prop :=
  sound (snd res) \/
  exists log0 ev e,
    snd res = (log0 ++ [ev])%list /\ sound log0 /\ fault ev = Some e /\ fst res = inl e.

Definition stopping {A : Type} (m : M A) : Prop :=
  forall up log, sound log -> stops_at_fault (m up log).

(** The sample services, with a page that is not JSON served for item 2 and
    the number 7 served for item 5. *)
Definition garbled_upstream : Upstream :=
  fun log req =>
    if String.eqb (url req) (url (item_request (JInt 2))) then
      Responds {| status_error := None;
                  body := inl "Expecting value: line 1 column 1 (char 0)" |}
    else if String.eqb (url req) (url (item_request (JInt 5))) then answered (JInt 7)
    else sample_upstream log req.

(** A service that answers every request with the same document. *)
Definition constant_upstream (doc : json) : Upstream :=
  fun _ _ => answered doc.

(** The sample services, with a search answer whose second hit is a string. *)
Definition odd_search_upstream : Upstream :=
  fun log req =>
    if String.eqb (url req) "https://hn.algolia.com/api/v1/search" then
      answered (JDict [("hits", JList [JDict [("objectID", JStr "101")]; JStr "oops"])])
    else sample_upstream log req.

(** ** The undecorated functions as the endpoint calls them

    The endpoint passes the arguments of a request as keyword arguments.
    The type hints of the functions are not enforced, so an argument is any
    decoded value, and the operations on it can raise. *)

(** The integer behind an [int] or a [bool], for a comparison with an
    [int] or as a slice index; the other types have none. *)
Definition int_value (v : json) : option Z :=
  match v with
  | JInt n => Some n
  | JBool b => Some (if b then 1 else 0)
  | _ => None
  end.

(** [max(v, n)] for an [int] [n]: the first argument unless [n > v]. *)
Definition py_max (v : json) (n : Z) : M json :=
  match int_value v with
  | Some m => ret (if n >? m then JInt n else v)
  | None =>
      raise (TypeError ("'>' not supported between instances of 'int' and '"
                          ++ type_name v ++ "'"))
  end.

(** [min(v, n)] for an [int] [n]: the first argument unless [n < v]. *)
Definition py_min (v : json) (n : Z) : M json :=
  match int_value v with
  | Some m => ret (if n <? m then JInt n else v)
  | None =>
      raise (TypeError ("'<' not supported between instances of 'int' and '"
                          ++ type_name v ++ "'"))
  end.

(** [v[:stop]] for a [stop] of any type.  With an [int] it is the slice of
    [py_slice_to]; a [bool] is an index too, but shows as itself in the key
    that a dict is looked up with; any other stop is no index, and no key
    when it is not hashable. *)
Definition py_slice_to_value (v : json) (stop : json) : M json :=
  match stop with
  | JInt n => py_slice_to v n
  | JBool b =>
      match v with
      | JDict _ => raise (KeyError ("slice(None, " ++ py_repr stop ++ ", None)"))
      | _ => py_slice_to v (if b then 1 else 0)
      end
  | _ =>
      match v with
      | JList _ | JStr _ =>
          raise (TypeError "slice indices must be integers or None or have an __index__ method")
      | JDict _ =>
          match stop with
          | JList _ | JDict _ => raise (TypeError ("unhashable type: '" ++ type_name stop ++ "'"))
          | _ => raise (KeyError ("slice(None, " ++ py_repr stop ++ ", None)"))
          end
      | _ => raise (TypeError ("'" ++ type_name v ++ "' object is not subscriptable"))
      end
  end.

Definition listing_call (path : string) (record : json -> dict -> json) (limit : json)
  : M JsonText :=
  try_except
    (limit <- py_max limit 1 ;;
     limit <- py_min limit 30 ;;
     response <- httpx_get (HN_API_BASE ++ path) [] 10 ;;
     raise_for_status response ;;;
     listing <- response_json response ;;
     story_ids <- py_slice_to_value listing limit ;;
     ids <- py_iter story_ids ;;
     stories <- for_each ids (item_step record) [] ;;
     ret (json_dumps (JList stories) 2))
    (fun e => ret (error_payload ("Request failed: " ++ e)))
    (fun e => ret (error_payload ("Unexpected error: " ++ e))).

(** [get_top_stories_http(limit=limit)] and [get_new_stories_http(limit=limit)]. *)
Definition get_top_stories_http_call (limit : json) : M JsonText :=
  listing_call "/topstories.json" top_record limit.

Definition get_new_stories_http_call (limit : json) : M JsonText :=
  listing_call "/newstories.json" new_record limit.

(** [get_story_http(story_id=story_id)]. *)
Definition get_story_http_call (story_id : json) : M JsonText :=
  try_except
    (response <- httpx_get (HN_API_BASE ++ "/item/" ++ py_str story_id ++ ".json") [] 10 ;;
     raise_for_status response ;;;
     story <- response_json response ;;
     if negb (py_truthy story) then
       ret (json_dumps (JDict [("error", JStr ("Story " ++ py_str story_id ++ " not found"))]) 2)
     else
       story <- with_get story ;;
       if negb (py_eq_str (dict_get story "type" JNull) "story") then
         ret (json_dumps
                (JDict [("error", JStr ("Item " ++ py_str story_id ++ " is not a story"))]) 2)
       else
         let formatted_story := JDict [
           ("id", dict_get story "id" JNull);
           ("title", dict_get story "title" (JStr ""));
           ("url", dict_get story "url"
                     (JStr ("https://news.ycombinator.com/item?id=" ++ py_str story_id)));
           ("score", dict_get story "score" (JInt 0));
           ("author", dict_get story "by" (JStr ""));
           ("comments", dict_get story "descendants" (JInt 0));
           ("time", dict_get story "time" (JInt 0));
           ("text", dict_get story "text" (JStr ""));
           ("kids", dict_get story "kids" (JList []))] in
         ret (json_dumps formatted_story 2))
    (fun e => ret (json_dumps (JDict [("error", JStr ("Request failed: " ++ e))]) 2))
    (fun e => ret (json_dumps (JDict [("error", JStr ("Unexpected error: " ++ e))]) 2)).

(** [search_stories_http(query=query, limit=limit)]. *)
Definition search_stories_http_call (query limit : json) : M JsonText :=
  try_except
    (limit <- py_max limit 1 ;;
     limit <- py_min limit 20 ;;
     let search_url := "https://hn.algolia.com/api/v1/search" in
     let params := [("query", query); ("tags", JStr "story"); ("hitsPerPage", limit)] in
     response <- httpx_get search_url params 10 ;;
     raise_for_status response ;;;
     data <- response_json response ;;
     data <- with_get data ;;
     hits <- py_iter (dict_get data "hits" (JList [])) ;;
     stories <- for_each hits hit_step [] ;;
     ret (json_dumps (JList stories) 2))
    (fun e => ret (json_dumps (JDict [("error", JStr ("Request failed: " ++ e))]) 2))
    (fun e => ret (json_dumps (JDict [("error", JStr ("Unexpected error: " ++ e))]) 2)).

(** *** Keyword arguments

    A call of a function [f] named [fname] with the keyword arguments
    [tool_args] unpacked by the double star, where the parameters of [f] are
    [names], those in [required] having no default: the arguments must be a
    mapping, every key a parameter, every required parameter a key.  The
    messages are those of CPython 3.12, where the functions belong to the
    module [__main__]. *)
Definition first_unexpected (names : list string) (kwargs : dict) : option string :=
  option_map fst (find (fun kv => negb (existsb (String.eqb (fst kv)) names)) kwargs).

Definition first_missing (required : list string) (kwargs : dict) : option string :=
  find (fun p => negb (dict_has kwargs p)) required.

Definition bind_keywords (fname : string) (names required : list string) (tool_args : json)
  : M dict :=
  match tool_args with
  | JDict kwargs =>
      match first_unexpected names kwargs with
      | Some k =>
          raise (TypeError (fname ++ "() got an unexpected keyword argument '" ++ k ++ "'"))
      | None =>
          match first_missing required kwargs with
          | Some p =>
              raise (TypeError (fname ++ "() missing 1 required positional argument: '"
                                  ++ p ++ "'"))
          | None => ret kwargs
          end
      end
  | _ =>
      raise (TypeError ("__main__." ++ fname ++ "() argument after ** must be a mapping, not "
                          ++ type_name tool_args))
  end.

(** ** The HTTP endpoint *)

(** The content of a reply, by shape: [{"jsonrpc": "2.0", "id": id,
    "result": result}]; the same with the result
    [{"content": [{"type": "text", "text": text}]}] of a tool; and
    [{"jsonrpc": "2.0", "id": id, "error": {"code": code, "message":
    message}}]. *)
Inductive Content : Type :=
| ResultContent (id : json) (result : json)
| ToolContent (id : json) (text : JsonText)
| ErrorContent (id : json) (code : Z) (message : string).

(** [JSONResponse(content=content, status_code=status_code)]; the status is
    200 when it is not given. *)
Record JSONResponse : Type := {
  content : Content;
  status_code : Z
}.

(** The tools that [tools/list] describes. *)
Definition tools : list json :=
  [JDict [("name", JStr "get_top_stories");
          ("description", JStr "Get top stories from Hacker News");
          ("inputSchema", JDict [
             ("type", JStr "object");
             ("properties", JDict [
                ("limit", JDict [
                   ("type", JStr "integer");
                   ("description", JStr "Number of stories to fetch (1-30)");
                   ("minimum", JInt 1);
                   ("maximum", JInt 30);
                   ("default", JInt 10)])])])];
   JDict [("name", JStr "get_new_stories");
          ("description", JStr "Get newest stories from Hacker News");
          ("inputSchema", JDict [
             ("type", JStr "object");
             ("properties", JDict [
                ("limit", JDict [
                   ("type", JStr "integer");
                   ("description", JStr "Number of stories to fetch (1-30)");
                   ("minimum", JInt 1);
                   ("maximum", JInt 30);
                   ("default", JInt 10)])])])];
   JDict [("name", JStr "get_story");
          ("description", JStr "Get details of a specific Hacker News story by ID");
          ("inputSchema", JDict [
             ("type", JStr "object");
             ("properties", JDict [
                ("story_id", JDict [
                   ("type", JStr "integer");
                   ("description", JStr "The ID of the story to fetch")])]);
             ("required", JList [JStr "story_id"])])];
   JDict [("name", JStr "search_stories");
          ("description", JStr "Search for stories on Hacker News using Algolia API");
          ("inputSchema", JDict [
             ("type", JStr "object");
             ("properties", JDict [
                ("query", JDict [
                   ("type", JStr "string");
                   ("description", JStr "Search query string")]);
                ("limit", JDict [
                   ("type", JStr "integer");
                   ("description", JStr "Number of results to return (1-20)");
                   ("minimum", JInt 1);
                   ("maximum", JInt 20);
                   ("default", JInt 10)])]);
             ("required", JList [JStr "query"])])]].

(** [mcp_endpoint(request)].  The request is the decoded body, an object.
    The line printed for debugging and the unused serialisation of the
    request are left out; they cannot raise. *)
Definition mcp_endpoint (request : dict) : M JSONResponse :=
  try_except
    (if py_eq_str (dict_get request "method" JNull) "initialize" then
       ret {| content :=
                ResultContent (dict_get request "id" JNull)
                  (JDict [("protocolVersion", JStr "2024-11-05");
                          ("capabilities", JDict [("tools", JDict [])]);
                          ("serverInfo", JDict [("name", JStr "Hacker News MCP Server");
                                                ("version", JStr "1.0.0")])]);
              status_code := 200 |}
     else if py_eq_str (dict_get request "method" JNull) "tools/list" then
       ret {| content :=
                ResultContent (dict_get request "id" JNull) (JDict [("tools", JList tools)]);
              status_code := 200 |}
     else if py_eq_str (dict_get request "method" JNull) "tools/call" then
       params <- with_get (dict_get request "params" (JDict [])) ;;
       let tool_name := dict_get params "name" JNull in
       params <- with_get (dict_get request "params" (JDict [])) ;;
       let tool_args := dict_get params "arguments" (JDict []) in
       if py_eq_str tool_name "get_top_stories" then
         kwargs <- bind_keywords "get_top_stories_http" ["limit"] [] tool_args ;;
         result <- get_top_stories_http_call (dict_get kwargs "limit" (JInt 10)) ;;
         ret {| content := ToolContent (dict_get request "id" JNull) result;
                status_code := 200 |}
       else if py_eq_str tool_name "get_new_stories" then
         kwargs <- bind_keywords "get_new_stories_http" ["limit"] [] tool_args ;;
         result <- get_new_stories_http_call (dict_get kwargs "limit" (JInt 10)) ;;
         ret {| content := ToolContent (dict_get request "id" JNull) result;
                status_code := 200 |}
       else if py_eq_str tool_name "get_story" then
         kwargs <- bind_keywords "get_story_http" ["story_id"] ["story_id"] tool_args ;;
         result <- get_story_http_call (dict_get kwargs "story_id" JNull) ;;
         ret {| content := ToolContent (dict_get request "id" JNull) result;
                status_code := 200 |}
       else if py_eq_str tool_name "search_stories" then
         kwargs <- bind_keywords "search_stories_http" ["query"; "limit"] ["query"] tool_args ;;
         result <- search_stories_http_call (dict_get kwargs "query" JNull)
                                            (dict_get kwargs "limit" (JInt 10)) ;;
         ret {| content := ToolContent (dict_get request "id" JNull) result;
                status_code := 200 |}
       else
         ret {| content :=
                  ErrorContent (dict_get request "id" JNull) (-32601)
                    ("Tool '" ++ py_str tool_name ++ "' not found");
                status_code := 200 |}
     else
       ret {| content :=
                ErrorContent (dict_get request "id" JNull) (-32601)
                  ("Method '" ++ py_str (dict_get request "method" JNull) ++ "' not found");
              status_code := 200 |})
    (fun e => ret {| content :=
                       ErrorContent (dict_get request "id" JNull) (-32603)
                         ("Internal error: " ++ e);
                     status_code := 500 |})
    (fun e => ret {| content :=
                       ErrorContent (dict_get request "id" JNull) (-32603)
                         ("Internal error: " ++ e);
                     status_code := 500 |}).

(** The name and the keyword arguments with which a client calls a tool. *)
Definition tool_name (c : Call) : string :=
  match c with
  | TopStories _ => "get_top_stories"
  | NewStories _ => "get_new_stories"
  | Story _ => "get_story"
  | Search _ _ => "search_stories"
  end.

Definition arguments (c : Call) : dict :=
  match c with
  | TopStories limit => [("limit", JInt limit)]
  | NewStories limit => [("limit", JInt limit)]
  | Story story_id => [("story_id", JInt story_id)]
  | Search query limit => [("query", JStr query); ("limit", JInt limit)]
  end.

(** The request of a client that calls a tool. *)
Definition call_request (id : json) (c : Call) : dict :=
  [("jsonrpc", JStr "2.0"); ("id", id); ("method", JStr "tools/call");
   ("params", JDict [("name", JStr (tool_name c)); ("arguments", JDict (arguments c))])].

(** The id that a reply carries, and whether the reply is an error. *)
Definition reply_id (reply : JSONResponse) : json :=
  match content reply with
  | ResultContent id _ | ToolContent id _ | ErrorContent id _ _ => id
  end.

Definition is_error (reply : JSONResponse) : bool :=
  match content reply with
  | ErrorContent _ _ _ => true
  | _ => false
  end.

(** What the body of the endpoint gives, before its handler: it raises
    before any exchange, or it replies with status 200 and the id of the
    request, an error reply coming before any exchange. *)
Definition endpoint_outcome (request : dict) (res : (Exception + JSONResponse) * list Event)
  : Prop :=
  match fst res with
  | inl _ => snd res = []
  | inr reply =>
      status_code reply = 200 /\
      reply_id reply = dict_get request "id" JNull /\
      (is_error reply = false \/ snd res = []) /\
      match content reply with
      | ToolContent _ _ => True
      | _ => snd res = []
      end
  end.

(** The parameters of the function behind a tool, and those without a
    default, as the endpoint binds them. *)
Definition parameters (c : Call) : list string :=
  match c with
  | TopStories _ | NewStories _ => ["limit"]
  | Story _ => ["story_id"]
  | Search _ _ => ["query"; "limit"]
  end.

Definition required_parameters (c : Call) : list string :=
  match c with
  | TopStories _ | NewStories _ => []
  | Story _ => ["story_id"]
  | Search _ _ => ["query"]
  end.

(** Reading a value through nested objects. *)
Fixpoint path_get (path : list string) (v : json) : json :=
  match path with
  | [] => v
  | key :: rest => path_get rest (field key v)
  end.

(** What [tools/list] declares for the [limit] of the tool [name]. *)
Definition declared_limit (name key : string) : json :=
  match find (fun tool => py_eq_str (field "name" tool) name) tools with
  | Some tool => path_get ["inputSchema"; "properties"; "limit"; key] tool
  | None => JNull
  end.

(** * Proofs *)

(** ** Each function is an instance of its scheme *)

Lemma get_top_stories_http_scheme :
  get_top_stories_http = listing_op "/topstories.json" top_record.
Proof. reflexivity. Qed.

Lemma get_new_stories_http_scheme :
  get_new_stories_http = listing_op "/newstories.json" new_record.
Proof. reflexivity. Qed.

Lemma get_top_stories_scheme :
  get_top_stories = listing_op "/topstories.json" top_record.
Proof. reflexivity. Qed.

Lemma get_new_stories_scheme :
  get_new_stories = listing_op "/newstories.json" new_record.
Proof. reflexivity. Qed.

Lemma search_stories_http_scheme : search_stories_http = search_op.
Proof. reflexivity. Qed.

Lemma search_stories_scheme : search_stories = search_op.
Proof. reflexivity. Qed.

Lemma get_story_http_scheme : get_story_http = story_op.
Proof. reflexivity. Qed.

Lemma get_story_scheme : get_story = story_op.
Proof. reflexivity. Qed.

(** ** One fetch: [httpx.get], [raise_for_status], [json] *)

Lemma fetch_bind {B : Type} (u : string) (p : dict) (t : Z) (k : json -> M B)
    (up : Upstream) (log : list Event) :
  (response <- httpx_get u p t ;;
   raise_for_status response ;;;
   doc <- response_json response ;;
   k doc) up log
  = let req := {| url := u; params := p; timeout := t |} in
    match up log req with
    | Raises e => (inl e, log ++ [(req, Raises e)])%list
    | Responds r =>
        match status_error r with
        | Some msg => (inl (HTTPStatusError msg), log ++ [(req, Responds r)])%list
        | None =>
            match body r with
            | inl msg => (inl (JSONDecodeError msg), log ++ [(req, Responds r)])%list
            | inr doc => k doc up (log ++ [(req, Responds r)])%list
            end
        end
    end.
Proof.
  unfold bind, httpx_get, raise_for_status, response_json, raise, ret; cbn.
  destruct (up log _) as [msg | [[m|] [m'|doc]]]; reflexivity.
Qed.

(** A fetch that lets the computation go on was answered with a document. *)
Lemma fetch_bind_inr {B : Type} (u : string) (p : dict) (t : Z) (k : json -> M B)
    (up : Upstream) (log log' : list Event) (x : B) :
  (response <- httpx_get u p t ;;
   raise_for_status response ;;;
   doc <- response_json response ;;
   k doc) up log = (inr x, log') ->
  exists doc,
    up log {| url := u; params := p; timeout := t |} = answered doc /\
    k doc up (log ++ [({| url := u; params := p; timeout := t |}, answered doc)])%list
      = (inr x, log').
Proof.
  rewrite fetch_bind; cbn.
  destruct (up log _) as [msg | [[m|] [m'|doc]]]; cbn; try discriminate.
  intros H. exists doc. split; [reflexivity | exact H].
Qed.

(** ** The listing loop *)

Lemma item_step_inr (record : json -> dict -> json) (story_id : json) (acc : list json)
    (up : Upstream) (log log' : list Event) (out : list json) :
  item_step record story_id acc up log = (inr out, log') ->
  exists doc,
    up log (item_request story_id) = answered doc /\
    log' = (log ++ [item_exchange (story_id, doc)])%list /\
    out = (acc ++ selected record (story_id, doc))%list.
Proof.
  unfold item_step. intros H. apply fetch_bind_inr in H.
  destruct H as [doc [Hup H]]. exists doc. split; [exact Hup |].
  unfold item_exchange, item_request, selected; cbn [fst snd].
  destruct (py_truthy doc) eqn:Ht.
  - destruct doc; cbn in H; try discriminate.
    unfold bind, with_get, ret in H; cbn in H.
    destruct (py_eq_str _ _); inversion H; subst; split; try reflexivity.
    now rewrite app_nil_r.
  - unfold ret in H. inversion H; subst. split; [reflexivity |].
    destruct doc; cbn in Ht; try discriminate; try now rewrite app_nil_r.
    destruct fields; [cbn; now rewrite app_nil_r | discriminate].
Qed.

Lemma item_step_log (record : json -> dict -> json) (story_id : json) (acc : list json)
    (up : Upstream) (log : list Event) :
  snd (item_step record story_id acc up log)
  = (log ++ [(item_request story_id, up log (item_request story_id))])%list.
Proof.
  unfold item_step. rewrite fetch_bind. cbv zeta.
  change {| url := _; params := []; timeout := 5 |} with (item_request story_id).
  destruct (up log (item_request story_id)) as [msg | [[m|] [m'|doc]]];
    cbn [status_error body]; try reflexivity.
  destruct (py_truthy doc); [| reflexivity].
  destruct doc; try reflexivity.
  unfold bind, with_get, ret. destruct (py_eq_str _ _); reflexivity.
Qed.

(** When the loop ends normally, every id was fetched and answered, in the
    order of the ids, and the result is the accumulator followed by the
    records of the stories among them. *)
Lemma for_each_items_inr (record : json -> dict -> json) (ids : list json) :
  forall (up : Upstream) (log log' : list Event) (acc out : list json),
    for_each ids (item_step record) acc up log = (inr out, log') ->
    exists fetched,
      map fst fetched = ids /\
      log' = (log ++ map item_exchange fetched)%list /\
      out = (acc ++ flat_map (selected record) fetched)%list.
Proof.
  induction ids as [| story_id rest IH]; intros up log log' acc out H.
  - cbn in H. unfold ret in H. inversion H; subst.
    exists []. cbn. now rewrite !app_nil_r.
  - cbn in H. unfold bind in H.
    destruct (item_step record story_id acc up log) as [[e | acc'] log1] eqn:Hs;
      [discriminate |].
    apply item_step_inr in Hs. destruct Hs as [doc [_ [Hl Ha]]].
    apply IH in H. destruct H as [fetched [Hids [Hlog Hout]]].
    exists ((story_id, doc) :: fetched). cbn [map fst flat_map].
    subst. split; [reflexivity |].
    now rewrite <- !app_assoc.
Qed.

(** Whatever the outcome, the loop fetches a prefix of the ids, in order,
    and nothing else. *)
Lemma for_each_items_log (record : json -> dict -> json) (ids : list json) :
  forall (up : Upstream) (log : list Event) (acc : list json),
    exists k,
      (k <= List.length ids)%nat /\
      map fst (snd (for_each ids (item_step record) acc up log))
      = (map fst log ++ map item_request (firstn k ids))%list.
Proof.
  induction ids as [| story_id rest IH]; intros up log acc.
  - exists 0%nat. cbn. split; [lia | now rewrite app_nil_r].
  - cbn [for_each]. unfold bind.
    pose proof (item_step_log record story_id acc up log) as Hl.
    destruct (item_step record story_id acc up log) as [[e | acc'] log1] eqn:Hs; cbn in Hl.
    + exists 1%nat. cbn. split; [lia |]. subst log1.
      rewrite map_app. reflexivity.
    + destruct (IH up log1 acc') as [k [Hk Hm]].
      exists (S k). split; [cbn; lia |].
      rewrite Hm. subst log1. rewrite map_app. cbn. now rewrite <- app_assoc.
Qed.

(** A fetched item that is falsy or an object passes through the loop
    without an exception. *)
Lemma item_step_run (record : json -> dict -> json) (story_id doc : json) (acc : list json)
    (up : Upstream) (log : list Event) :
  up log (item_request story_id) = answered doc ->
  py_truthy doc = false \/ (exists d, doc = JDict d) ->
  item_step record story_id acc up log
  = (inr (acc ++ selected record (story_id, doc))%list,
     (log ++ [item_exchange (story_id, doc)])%list).
Proof.
  intros Hup Hdoc. unfold item_step. rewrite fetch_bind. cbv zeta.
  change {| url := _; params := []; timeout := 5 |} with (item_request story_id).
  rewrite Hup. unfold answered; cbn [status_error body].
  unfold item_exchange, selected; cbn [fst snd].
  destruct (py_truthy doc) eqn:Ht.
  - destruct Hdoc as [Hf | [d Hd]]; [discriminate |]. subst doc.
    unfold bind, with_get, ret.
    destruct (py_eq_str _ _); [reflexivity | now rewrite app_nil_r].
  - unfold ret. f_equal. f_equal.
    destruct doc; cbn in Ht; try discriminate; try now rewrite app_nil_r.
    destruct fields; [cbn; now rewrite app_nil_r | discriminate].
Qed.

Lemma for_each_items_run (record : json -> dict -> json) (item_of : json -> json)
    (up : Upstream) (ids : list json) :
  (forall log story_id, In story_id ids ->
     up log (item_request story_id) = answered (item_of story_id)) ->
  (forall story_id, In story_id ids ->
     py_truthy (item_of story_id) = false \/ exists d, item_of story_id = JDict d) ->
  forall (log : list Event) (acc : list json),
    for_each ids (item_step record) acc up log
    = (inr (acc ++ flat_map (selected record) (map (fun i => (i, item_of i)) ids))%list,
       (log ++ map item_exchange (map (fun i => (i, item_of i)) ids))%list).
Proof.
  induction ids as [| story_id rest IH]; intros Hup Hdoc log acc.
  - cbn. unfold ret. now rewrite !app_nil_r.
  - cbn [for_each map flat_map]. unfold bind.
    rewrite (item_step_run record story_id (item_of story_id));
      [| apply Hup; now left | apply Hdoc; now left].
    rewrite IH.
    + now rewrite <- !app_assoc.
    + intros l i Hi. apply Hup. now right.
    + intros i Hi. apply Hdoc. now right.
Qed.

(** ** Failing fast, compositionally *)

Lemma failed_failure (ev : Event) : failed ev = true <-> failure ev <> None.
Proof.
  unfold failed, failure. destruct (snd ev) as [msg | r].
  - split; [discriminate | reflexivity].
  - destruct (status_error r); split; intros H; try discriminate; try reflexivity.
    now contradiction H.
Qed.

Lemma clean_snoc (log : list Event) (ev : Event) :
  clean log -> failure ev = None -> clean (log ++ [ev]).
Proof.
  intros Hl He. apply Forall_app. split; [exact Hl | now constructor].
Qed.

Lemma fails_fast_pure {A : Type} (m : M A) :
  (forall up log, snd (m up log) = log) -> fails_fast m.
Proof.
  intros H up log Hc. left. now rewrite H.
Qed.

Lemma fails_fast_ret {A : Type} (x : A) : fails_fast (ret x).
Proof. now apply fails_fast_pure. Qed.

Lemma fails_fast_raise {A : Type} (e : Exception) : fails_fast (@raise A e).
Proof. now apply fails_fast_pure. Qed.

Lemma fails_fast_bind {A B : Type} (m : M A) (k : A -> M B) :
  fails_fast m -> (forall x, fails_fast (k x)) -> fails_fast (bind m k).
Proof.
  intros Hm Hk up log Hc. unfold bind.
  specialize (Hm up log Hc).
  destruct (m up log) as [[e | x] log1].
  - destruct Hm as [Hm | [log0 [ev [e' [H1 [H2 [H3 H4]]]]]]]; [left; exact Hm |].
    right. exists log0, ev, e'. cbn [fst snd] in *.
    injection H4 as ->. repeat split; assumption.
  - apply Hk. destruct Hm as [Hm | [log0 [ev [e' [H1 [H2 [H3 H4]]]]]]]; [exact Hm |].
    cbn [fst] in H4. discriminate.
Qed.

Lemma fails_fast_fetch {B : Type} (u : string) (p : dict) (t : Z) (k : json -> M B) :
  (forall doc, fails_fast (k doc)) ->
  fails_fast (response <- httpx_get u p t ;;
              raise_for_status response ;;;
              doc <- response_json response ;;
              k doc).
Proof.
  intros Hk up log Hc. rewrite fetch_bind.
  set (req := {| url := u; params := p; timeout := t |}). cbv zeta.
  destruct (up log req) as [msg | [[m|] [m'|doc]]] eqn:Hup; cbn [status_error body].
  - right. exists log, (req, Raises msg), msg.
    cbn [fst snd]. repeat split; assumption || reflexivity.
  - right. exists log, (req, Responds {| status_error := Some m; body := inl m' |}),
      (HTTPStatusError m).
    cbn [fst snd]. repeat split; assumption || reflexivity.
  - right. exists log, (req, Responds {| status_error := Some m; body := inr doc |}),
      (HTTPStatusError m).
    cbn [fst snd]. repeat split; assumption || reflexivity.
  - left. cbn [snd]. now apply clean_snoc.
  - apply Hk. now apply clean_snoc.
Qed.

Lemma fails_fast_for_each {S : Type} (body : json -> S -> M S) (xs : list json) :
  (forall x s, fails_fast (body x s)) ->
  forall s, fails_fast (for_each xs body s).
Proof.
  intros Hb. induction xs as [| x rest IH]; intros s; cbn [for_each].
  - apply fails_fast_ret.
  - apply fails_fast_bind; [apply Hb | exact IH].
Qed.

Lemma fails_fast_with_get (v : json) : fails_fast (with_get v).
Proof. apply fails_fast_pure. intros up log. now destruct v. Qed.

Lemma fails_fast_py_iter (v : json) : fails_fast (py_iter v).
Proof. apply fails_fast_pure. intros up log. now destruct v. Qed.

Lemma fails_fast_py_slice_to (v : json) (n : Z) : fails_fast (py_slice_to v n).
Proof. apply fails_fast_pure. intros up log. now destruct v. Qed.

Create HintDb failfast.

#[local] Hint Resolve fails_fast_ret fails_fast_raise fails_fast_with_get
  fails_fast_py_iter fails_fast_py_slice_to : failfast.

Ltac fail_fast_step :=
  match goal with
  | |- fails_fast (if ?b then _ else _) => destruct b
  | |- fails_fast (bind (httpx_get _ _ _) _) => apply fails_fast_fetch; intros
  | |- fails_fast (bind _ _) => apply fails_fast_bind; intros
  | |- fails_fast (for_each _ _ _) => apply fails_fast_for_each; intros
  | |- fails_fast _ => solve [auto with failfast]
  end.

Lemma fails_fast_item_step (record : json -> dict -> json) (story_id : json) (acc : list json) :
  fails_fast (item_step record story_id acc).
Proof. unfold item_step. repeat fail_fast_step. Qed.

Lemma fails_fast_listing_body (path : string) (record : json -> dict -> json) (n : Z) :
  fails_fast (listing_body path record n).
Proof.
  unfold listing_body. repeat fail_fast_step. apply fails_fast_item_step.
Qed.

Lemma fails_fast_search_body (query : string) (n : Z) : fails_fast (search_body query n).
Proof. unfold search_body, hit_step. repeat fail_fast_step. Qed.

Lemma fails_fast_story_body (story_id : Z) : fails_fast (story_body story_id).
Proof. unfold story_body. repeat fail_fast_step. Qed.

(** ** The operation boundary: [try] with the two handlers *)

Lemma guarded_run (body : M JsonText) (up : Upstream) (log : list Event) :
  guarded body up log
  = match body up log with
    | (inr text, log') => (inr text, log')
    | (inl e, log') => (inr (error_payload (error_message e)), log')
    end.
Proof.
  unfold guarded, try_except.
  destruct (body up log) as [[e | text] log']; [| reflexivity].
  destruct e; reflexivity.
Qed.

Lemma guarded_log (body : M JsonText) (up : Upstream) (log : list Event) :
  snd (guarded body up log) = snd (body up log).
Proof.
  rewrite guarded_run. now destruct (body up log) as [[e | text] log'].
Qed.

Lemma guarded_returns (body : M JsonText) (up : Upstream) (log : list Event) :
  exists text, fst (guarded body up log) = inr text.
Proof.
  rewrite guarded_run. destruct (body up log) as [[e | text] log']; eexists; reflexivity.
Qed.

(** A result that is not an error document was returned by the body. *)
Lemma guarded_inr_list (body : M JsonText) (up : Upstream) (log log' : list Event)
    (stories : list json) (indent : Z) :
  guarded body up log = (inr (json_dumps (JList stories) indent), log') ->
  body up log = (inr (json_dumps (JList stories) indent), log').
Proof.
  rewrite guarded_run. destruct (body up log) as [[e | text] l]; [discriminate |].
  intros H. exact H.
Qed.

(** At the boundary, a body that fails fast gives: always a document; and
    when an exchange failed, it is the last one of the log and the document
    is the error document of its exception. *)
Lemma guarded_fail_fast (body : M JsonText) (up : Upstream) :
  fails_fast body ->
  (exists text, fst (guarded body up []) = inr text) /\
  (forall ev, In ev (snd (guarded body up [])) -> failed ev = true ->
     exists e log0,
       failure ev = Some e /\
       snd (guarded body up []) = (log0 ++ [ev])%list /\
       clean log0 /\
       fst (guarded body up []) = inr (error_payload (error_message e))).
Proof.
  intros Hff. split; [apply guarded_returns |].
  intros ev Hin Hfailed. apply failed_failure in Hfailed.
  specialize (Hff up [] (Forall_nil _)).
  rewrite guarded_log in Hin. rewrite guarded_log. rewrite guarded_run.
  destruct (body up []) as [res log']. unfold fail_fast in Hff. cbn [fst snd] in *.
  destruct Hff as [Hc | [log0 [ev0 [e [H1 [H2 [H3 H4]]]]]]].
  - exfalso. apply Hfailed. unfold clean in Hc. rewrite Forall_forall in Hc. now apply Hc.
  - subst log' res. apply in_app_or in Hin. destruct Hin as [Hin | [Heq | []]].
    + exfalso. apply Hfailed. unfold clean in H2. rewrite Forall_forall in H2. now apply H2.
    + subst ev0. exists e, log0. repeat split; assumption || reflexivity.
Qed.

(** ** The listing operations, inverted and traced *)

Lemma slice_stop_nonneg (len : nat) (n : Z) : 0 <= n -> slice_stop len n = Z.to_nat n.
Proof.
  intros Hn. unfold slice_stop. destruct (n <? 0) eqn:E; [| reflexivity].
  apply Z.ltb_lt in E. lia.
Qed.

Lemma string_firstn_length (k : nat) (s : string) :
  (String.length (string_firstn k s) <= k)%nat.
Proof.
  revert s. induction k as [| k IH]; intros s; cbn; [lia |].
  destruct s as [| c rest]; cbn; [lia |]. specialize (IH rest). lia.
Qed.

Lemma list_ascii_length (s : string) :
  List.length (list_ascii_of_string s) = String.length s.
Proof. induction s as [| c rest IH]; cbn; [reflexivity | now rewrite IH]. Qed.

Lemma visited_length (listing : json) (n : Z) :
  0 <= n -> (List.length (visited listing n) <= Z.to_nat n)%nat.
Proof.
  intros Hn. destruct listing; cbn; try lia.
  - rewrite length_map, list_ascii_length, slice_stop_nonneg by exact Hn.
    apply string_firstn_length.
  - rewrite slice_stop_nonneg by exact Hn. apply firstn_le_length.
Qed.

Lemma visited_list (items : list json) (n : Z) :
  0 <= n -> visited (JList items) n = firstn (Z.to_nat n) items.
Proof. intros Hn. cbn. now rewrite slice_stop_nonneg. Qed.

Lemma slice_iter_inr {B : Type} (listing : json) (n : Z) (k : list json -> M B)
    (up : Upstream) (log log' : list Event) (x : B) :
  (story_ids <- py_slice_to listing n ;; ids <- py_iter story_ids ;; k ids) up log
    = (inr x, log') ->
  k (visited listing n) up log = (inr x, log').
Proof.
  destruct listing; cbn; unfold bind, raise, ret; cbn; try discriminate; auto.
Qed.

Lemma slice_iter_log {B : Type} (listing : json) (n : Z) (k : list json -> M B)
    (up : Upstream) (log : list Event) :
  snd ((story_ids <- py_slice_to listing n ;; ids <- py_iter story_ids ;; k ids) up log) = log
  \/ (story_ids <- py_slice_to listing n ;; ids <- py_iter story_ids ;; k ids) up log
     = k (visited listing n) up log.
Proof.
  destruct listing; cbn; unfold bind, raise, ret; cbn; auto.
Qed.

(** A listing body that returns: the listing was answered, then each
    visited id was fetched and answered, in order, and the result is the
    array of the records of the stories among the fetched items. *)
Lemma listing_body_inr (path : string) (record : json -> dict -> json) (n : Z)
    (up : Upstream) (log : list Event) (text : JsonText) :
  listing_body path record n up [] = (inr text, log) ->
  exists listing fetched,
    up [] (listing_request path) = answered listing /\
    map fst fetched = visited listing n /\
    log = (listing_request path, answered listing) :: map item_exchange fetched /\
    text = json_dumps (JList (flat_map (selected record) fetched)) 2.
Proof.
  unfold listing_body. intros H. apply fetch_bind_inr in H.
  destruct H as [listing [Hup H]]. apply slice_iter_inr in H.
  unfold bind in H.
  destruct (for_each _ _ _ _ _) as [[e | stories] log1] eqn:Hloop; [discriminate |].
  apply for_each_items_inr in Hloop. destruct Hloop as [fetched [H1 [H2 H3]]].
  unfold ret in H. inversion H; subst.
  exists listing, fetched. repeat split; assumption || reflexivity.
Qed.

(** Whatever the outcome, the requests of a listing body are the listing
    request followed by the item requests of a prefix of the visited ids. *)
Lemma listing_body_trace (path : string) (record : json -> dict -> json) (n : Z)
    (up : Upstream) :
  exists listing k,
    map fst (snd (listing_body path record n up []))
    = listing_request path :: map item_request (firstn k (visited listing n)) /\
    (forall doc, up [] (listing_request path) = answered doc -> listing = doc).
Proof.
  unfold listing_body. rewrite fetch_bind. cbv zeta.
  change {| url := _; params := []; timeout := 10 |} with (listing_request path).
  destruct (up [] (listing_request path)) as [msg | [[m|] [m'|doc]]];
    cbn [status_error body];
    try (exists JNull, 0%nat; split; [reflexivity | intros d Hd; discriminate]).
  exists doc.
  assert (Hdoc : forall d, Responds {| status_error := None; body := inr doc |} = answered d ->
                           doc = d)
    by (intros d Hd; unfold answered in Hd; now inversion Hd).
  set (log1 := (_ ++ [_])%list).
  assert (Hlog1 : map fst log1 = [listing_request path]) by reflexivity.
  destruct (slice_iter_log doc n
              (fun ids => stories <- for_each ids (item_step record) [] ;;
                          ret (json_dumps (JList stories) 2))
              up log1)
    as [Hl | Hr]; cbv beta in *.
  - exists 0%nat. rewrite Hl, Hlog1. split; [reflexivity | exact Hdoc].
  - rewrite Hr. unfold bind.
    destruct (for_each_items_log record (visited doc n) up log1 []) as [k [Hk Hm]].
    exists k. split; [| exact Hdoc].
    rewrite Hlog1 in Hm.
    destruct (for_each _ _ _ _ _) as [[e | stories] log2]; cbn [snd] in *; exact Hm.
Qed.

(** A listing operation run against an upstream that serves the array
    [ids] and, for each of the first ids, an item that is absent or an
    object. *)
Lemma listing_op_run (path : string) (record : json -> dict -> json) (item_of : json -> json)
    (up : Upstream) (ids : list json) (limit : Z) :
  let taken := firstn (listing_count limit) ids in
  up [] (listing_request path) = answered (JList ids) ->
  (forall log story_id, In story_id taken ->
     up log (item_request story_id) = answered (item_of story_id)) ->
  (forall story_id, In story_id taken ->
     py_truthy (item_of story_id) = false \/ exists d, item_of story_id = JDict d) ->
  listing_op path record limit up []
  = (inr (json_dumps
            (JList (flat_map (selected record) (map (fun i => (i, item_of i)) taken))) 2),
     (listing_request path, answered (JList ids))
       :: map item_exchange (map (fun i => (i, item_of i)) taken)).
Proof.
  intros taken Hlist Hitems Hshape.
  change (listing_op path record limit)
    with (guarded (listing_body path record (Z.min (Z.max limit 1) 30))).
  rewrite guarded_run. unfold listing_body. rewrite fetch_bind. cbv zeta.
  change {| url := _; params := []; timeout := 10 |} with (listing_request path).
  rewrite Hlist. unfold answered at 1. cbn [status_error body].
  unfold py_slice_to, py_iter. unfold bind at 1. unfold ret at 1.
  unfold bind at 1. unfold ret at 1. unfold bind at 1.
  rewrite slice_stop_nonneg by lia. fold (listing_count limit). fold taken.
  rewrite (for_each_items_run record item_of up taken Hitems Hshape).
  reflexivity.
Qed.

(** ** The search operation *)

Lemma for_each_hits_log (hits : list json) :
  forall (acc : list json) (up : Upstream) (log : list Event),
    snd (for_each hits hit_step acc up log) = log.
Proof.
  induction hits as [| hit rest IH]; intros acc up log; cbn [for_each]; [reflexivity |].
  unfold bind, hit_step, with_get. destruct hit; try reflexivity.
  unfold bind, ret. apply IH.
Qed.

Lemma for_each_hits_run (hits : list dict) :
  forall (acc : list json) (up : Upstream) (log : list Event),
    for_each (map JDict hits) hit_step acc up log
    = (inr (acc ++ map hit_record hits)%list, log).
Proof.
  induction hits as [| hit rest IH]; intros acc up log; cbn [for_each map].
  - unfold ret. now rewrite app_nil_r.
  - unfold bind at 1. unfold hit_step, with_get, bind, ret.
    rewrite IH. now rewrite <- app_assoc.
Qed.

Lemma for_each_hits_inr (hits : list json) :
  forall (acc out : list json) (up : Upstream) (log log' : list Event),
    for_each hits hit_step acc up log = (inr out, log') ->
    exists ds, hits = map JDict ds /\ out = (acc ++ map hit_record ds)%list.
Proof.
  induction hits as [| hit rest IH]; intros acc out up log log' H; cbn [for_each] in H.
  - unfold ret in H. inversion H; subst. exists []. cbn. now rewrite app_nil_r.
  - unfold bind at 1 in H. unfold hit_step, with_get in H.
    destruct hit; try discriminate.
    unfold bind, ret in H. apply IH in H. destruct H as [ds [H1 H2]].
    exists (fields :: ds). cbn [map]. subst. split; [reflexivity | now rewrite <- app_assoc].
Qed.

Lemma search_body_log (query : string) (n : Z) (up : Upstream) :
  snd (search_body query n up [])
  = [(search_request query n, up [] (search_request query n))].
Proof.
  unfold search_body. rewrite fetch_bind. cbv zeta.
  change {| url := _; params := _; timeout := 10 |} with (search_request query n).
  destruct (up [] (search_request query n)) as [msg | [[m|] [m'|doc]]];
    cbn [status_error body]; try reflexivity.
  unfold bind at 1. unfold with_get. destruct doc; try reflexivity.
  unfold ret at 1. unfold bind at 1.
  unfold py_iter. destruct (dict_get fields "hits" (JList [])); try reflexivity;
    unfold ret at 1; unfold bind;
    match goal with
    | |- context [for_each ?h hit_step ?a ?u ?l] =>
        pose proof (for_each_hits_log h a u l) as Hl;
        destruct (for_each h hit_step a u l) as [[e | stories] log1]
    end; cbn [snd] in *; subst; reflexivity.
Qed.

(** Search against an upstream that answers with an object whose ["hits"]
    is an array of objects. *)
Lemma search_op_run (query : string) (limit : Z) (up : Upstream) (data : dict)
    (hits : list dict) :
  let n := Z.min (Z.max limit 1) 20 in
  up [] (search_request query n) = answered (JDict data) ->
  dict_get data "hits" (JList []) = JList (map JDict hits) ->
  search_op query limit up []
  = (inr (json_dumps (JList (map hit_record hits)) 2),
     [(search_request query n, answered (JDict data))]).
Proof.
  intros n Hup Hhits.
  change (search_op query limit) with (guarded (search_body query n)).
  rewrite guarded_run. unfold search_body. rewrite fetch_bind. cbv zeta.
  change {| url := _; params := _; timeout := 10 |} with (search_request query n).
  rewrite Hup. unfold answered at 1. cbn [status_error body].
  unfold with_get. unfold bind at 1. unfold ret at 1.
  rewrite Hhits. unfold py_iter. unfold bind at 1. unfold ret at 1.
  unfold bind at 1. rewrite for_each_hits_run. reflexivity.
Qed.

(** A search body that returns: the answer was an object, the elements
    visited in its ["hits"] were all objects, and the result is the array of
    their records, in that order. *)
Lemma search_body_inr (query : string) (n : Z) (up : Upstream) (log : list Event)
    (text : JsonText) :
  search_body query n up [] = (inr text, log) ->
  exists data ds,
    up [] (search_request query n) = answered (JDict data) /\
    text = json_dumps (JList (map hit_record ds)) 2 /\
    (forall hits, dict_get data "hits" (JList []) = JList hits -> hits = map JDict ds).
Proof.
  unfold search_body. intros H. apply fetch_bind_inr in H.
  destruct H as [doc [Hup H]].
  unfold bind at 1 in H. unfold with_get in H. destruct doc; try discriminate.
  unfold ret at 1 in H. unfold bind at 1 in H.
  destruct (py_iter _ _ _) as [[e | hits] log1] eqn:Hiter; [discriminate |].
  unfold bind in H.
  destruct (for_each hits hit_step [] up log1) as [[e | stories] log2] eqn:Hloop;
    [discriminate |].
  apply for_each_hits_inr in Hloop. destruct Hloop as [ds [H1 H2]].
  unfold ret in H. inversion H; subst.
  exists fields, ds. split; [exact Hup |]. split; [reflexivity |].
  intros hs Hhs. rewrite Hhs in Hiter. cbn in Hiter. unfold ret in Hiter.
  now inversion Hiter.
Qed.

(** ** The single-story operation *)

Lemma story_body_log (story_id : Z) (up : Upstream) :
  snd (story_body story_id up [])
  = [(story_request story_id, up [] (story_request story_id))].
Proof.
  unfold story_body. rewrite fetch_bind. cbv zeta.
  change {| url := _; params := []; timeout := 10 |} with (story_request story_id).
  destruct (up [] (story_request story_id)) as [msg | [[m|] [m'|doc]]];
    cbn [status_error body]; try reflexivity.
  destruct (py_truthy doc); cbn [negb]; [| reflexivity].
  unfold bind, with_get. destruct doc; try reflexivity.
  unfold ret. destruct (py_eq_str _ _); reflexivity.
Qed.

Lemma story_op_answered (story_id : Z) (up : Upstream) (doc : json) :
  up [] (story_request story_id) = answered doc ->
  fst (story_op story_id up [])
  = if negb (py_truthy doc) then
      inr (error_payload ("Story " ++ str_int story_id ++ " not found"))
    else
      match doc with
      | JDict d =>
          if negb (py_eq_str (dict_get d "type" JNull) "story") then
            inr (error_payload ("Item " ++ str_int story_id ++ " is not a story"))
          else inr (json_dumps (single_record story_id d) 2)
      | _ =>
          inr (error_payload
                 ("Unexpected error: '" ++ type_name doc ++ "' object has no attribute 'get'"))
      end.
Proof.
  intros Hup. change (story_op story_id) with (guarded (story_body story_id)).
  rewrite guarded_run. unfold story_body. rewrite fetch_bind. cbv zeta.
  change {| url := _; params := []; timeout := 10 |} with (story_request story_id).
  rewrite Hup. unfold answered. cbn [status_error body].
  destruct (py_truthy doc); cbn [negb]; [| reflexivity].
  unfold bind, with_get. destruct doc; try reflexivity.
  unfold ret. destruct (py_eq_str _ _); reflexivity.
Qed.

(** ** Dispatch *)

Lemma tool_guarded (c : Call) : tool c = guarded (body_of c).
Proof. destruct c; reflexivity. Qed.

Lemma http_guarded (c : Call) : http c = guarded (body_of c).
Proof. destruct c; reflexivity. Qed.

Lemma fails_fast_body_of (c : Call) : fails_fast (body_of c).
Proof.
  destruct c; cbn [body_of].
  - apply fails_fast_listing_body.
  - apply fails_fast_listing_body.
  - apply fails_fast_story_body.
  - apply fails_fast_search_body.
Qed.

(** ** Small facts on values *)

Lemma dict_get_absent (d : dict) (key : string) (default : json) :
  dict_has d key = false -> dict_get d key default = default.
Proof.
  induction d as [| [k v] rest IH]; cbn; [reflexivity |].
  destruct (String.eqb k key); [discriminate | exact IH].
Qed.

Lemma str_int_nonempty (n : Z) : str_int n <> "".
Proof.
  unfold str_int. destruct (Z.to_int n) as [d | d]; cbn; [| discriminate].
  destruct d; cbn; discriminate.
Qed.

Lemma py_str_nonempty (v : json) : py_truthy v = true -> py_str v <> "".
Proof.
  destruct v; cbn; try discriminate.
  - destruct b; discriminate.
  - intros _. apply str_int_nonempty.
  - intros H. apply negb_true_iff in H. now apply String.eqb_neq in H.
Qed.

(** [time and str(time) or None] is [None] exactly for a falsy [time]. *)
Lemma time_iso_of_falsy (time : json) :
  time_iso_of time = JNull <-> py_truthy time = false.
Proof.
  unfold time_iso_of, py_and, py_or.
  destruct (py_truthy time) eqn:Ht.
  - assert (Hs : py_truthy (JStr (py_str time)) = true).
    { cbn. apply negb_true_iff, String.eqb_neq. now apply py_str_nonempty. }
    rewrite Hs. split; discriminate.
  - rewrite Ht. split; reflexivity.
Qed.

Lemma selected_filter_map (record : json -> dict -> json) (fetched : list (json * json)) :
  flat_map (selected record) fetched
  = map (fun f => record (fst f) (fields_of (snd f)))
        (filter (fun f => is_story (snd f)) fetched).
Proof.
  induction fetched as [| [story_id doc] rest IH]; [reflexivity |].
  cbn [flat_map filter]. rewrite IH. unfold selected, is_story. cbn [fst snd].
  destruct doc; try reflexivity.
  destruct (py_eq_str _ _); reflexivity.
Qed.

Lemma filter_map_served {A : Type} (item_of : json -> json) (g : json * json -> A)
    (ids : list json) :
  map g (filter (fun f => is_story (snd f)) (map (fun i => (i, item_of i)) ids))
  = map (fun i => g (i, item_of i)) (filter (fun i => is_story (item_of i)) ids).
Proof.
  induction ids as [| i rest IH]; [reflexivity |].
  cbn [map filter snd]. destruct (is_story (item_of i)); cbn [map]; now rewrite IH.
Qed.

(** ** Bounds on the requested count *)

Lemma listing_op_clamped (path : string) (record : json -> dict -> json) (limit : Z) :
  listing_op path record limit = listing_op path record (Z.min (Z.max limit 1) 30).
Proof.
  unfold listing_op.
  replace (Z.min (Z.max (Z.min (Z.max limit 1) 30) 1) 30) with (Z.min (Z.max limit 1) 30) by lia.
  reflexivity.
Qed.

Lemma search_op_clamped (query : string) (limit : Z) :
  search_op query limit = search_op query (Z.min (Z.max limit 1) 20).
Proof.
  unfold search_op.
  replace (Z.min (Z.max (Z.min (Z.max limit 1) 20) 1) 20) with (Z.min (Z.max limit 1) 20) by lia.
  reflexivity.
Qed.

Lemma listing_op_requests (path : string) (record : json -> dict -> json) (limit : Z)
    (up : Upstream) :
  exists listing k,
    map fst (snd (run (listing_op path record limit) up))
    = listing_request path
        :: map item_request (firstn k (visited listing (Z.min (Z.max limit 1) 30))) /\
    (forall doc, up [] (listing_request path) = answered doc -> listing = doc).
Proof.
  unfold run.
  change (listing_op path record limit)
    with (guarded (listing_body path record (Z.min (Z.max limit 1) 30))).
  rewrite guarded_log. apply listing_body_trace.
Qed.

Lemma listing_op_length (path : string) (record : json -> dict -> json) (limit : Z)
    (up : Upstream) :
  (List.length (snd (run (listing_op path record limit) up))
   <= 1 + Z.to_nat (Z.min (Z.max limit 1) 30))%nat.
Proof.
  destruct (listing_op_requests path record limit up) as [listing [k [H _]]].
  assert (Hlen : List.length (snd (run (listing_op path record limit) up))
                 = S (List.length (firstn k (visited listing (Z.min (Z.max limit 1) 30))))).
  { rewrite <- (length_map item_request).
    change (S (List.length (map item_request ?l)))
      with (List.length (listing_request path :: map item_request l)).
    rewrite <- H. symmetry. apply length_map. }
  rewrite Hlen, length_firstn.
  pose proof (visited_length listing (Z.min (Z.max limit 1) 30)). lia.
Qed.

Lemma listing_op_requests_list (path : string) (record : json -> dict -> json) (limit : Z)
    (up : Upstream) (ids : list json) :
  up [] (listing_request path) = answered (JList ids) ->
  exists k,
    map fst (snd (run (listing_op path record limit) up))
    = listing_request path
        :: map item_request (firstn k (firstn (listing_count limit) ids)).
Proof.
  intros Hup.
  destruct (listing_op_requests path record limit up) as [listing [k [H Hl]]].
  specialize (Hl _ Hup). subst listing.
  rewrite visited_list in H by lia. now exists k.
Qed.

Lemma search_op_requests (query : string) (limit : Z) (up : Upstream) :
  map fst (snd (run (search_op query limit) up))
  = [search_request query (Z.min (Z.max limit 1) 20)].
Proof.
  unfold run.
  change (search_op query limit) with (guarded (search_body query (Z.min (Z.max limit 1) 20))).
  rewrite guarded_log, search_body_log. reflexivity.
Qed.



(** ** The two copies of each operation *)

(** C9.  Each undecorated function of the HTTP endpoint equals the function
    registered as a tool: the same computation for every input and every
    upstream.  Hence the dispatch of the endpoint gives, for every call and
    every upstream, the result and the exchanges of the tool. *)
Theorem http_functions_equal_tools :
  get_top_stories_http = get_top_stories /\
  get_new_stories_http = get_new_stories /\
  get_story_http = get_story /\
  search_stories_http = search_stories /\
  (forall (c : Call) (up : Upstream), run (http c) up = run (tool c) up).
Proof.
  repeat split; reflexivity.
Qed.

(** ** The single story *)



(** ** Normalisation *)

(** C7.  A field that the raw record lacks is replaced by its default in
    every record that has the field: title gives [""], score gives [0],
    author gives [""], comments gives [0] (the record of [get_new_stories]
    has no comments field), time gives [0].  A raw record without [url]
    gets the discussion link built from the id: the listing id in the
    listing operations, [story_id] in [get_story], [objectID] in a search
    hit. *)
Theorem missing_fields_get_defaults (story_id : json) (sid : Z) (raw : dict) :
  (dict_has raw "title" = false ->
     field "title" (top_record story_id raw) = JStr "" /\
     field "title" (new_record story_id raw) = JStr "" /\
     field "title" (single_record sid raw) = JStr "" /\
     field "title" (hit_record raw) = JStr "") /\
  (dict_has raw "score" = false ->
     field "score" (top_record story_id raw) = JInt 0 /\
     field "score" (new_record story_id raw) = JInt 0 /\
     field "score" (single_record sid raw) = JInt 0) /\
  (dict_has raw "points" = false -> field "score" (hit_record raw) = JInt 0) /\
  (dict_has raw "by" = false ->
     field "author" (top_record story_id raw) = JStr "" /\
     field "author" (new_record story_id raw) = JStr "" /\
     field "author" (single_record sid raw) = JStr "") /\
  (dict_has raw "author" = false -> field "author" (hit_record raw) = JStr "") /\
  (dict_has raw "descendants" = false ->
     field "comments" (top_record story_id raw) = JInt 0 /\
     field "comments" (single_record sid raw) = JInt 0) /\
  (dict_has raw "num_comments" = false -> field "comments" (hit_record raw) = JInt 0) /\
  (dict_has raw "time" = false ->
     field "time" (top_record story_id raw) = JInt 0 /\
     field "time" (new_record story_id raw) = JInt 0 /\
     field "time" (single_record sid raw) = JInt 0) /\
  (dict_has raw "created_at_i" = false -> field "time" (hit_record raw) = JInt 0) /\
  (dict_has raw "url" = false ->
     field "url" (top_record story_id raw)
     = JStr ("https://news.ycombinator.com/item?id=" ++ py_str story_id) /\
     field "url" (new_record story_id raw)
     = JStr ("https://news.ycombinator.com/item?id=" ++ py_str story_id) /\
     field "url" (single_record sid raw)
     = JStr ("https://news.ycombinator.com/item?id=" ++ str_int sid) /\
     field "url" (hit_record raw)
     = JStr ("https://news.ycombinator.com/item?id="
               ++ py_str (dict_get raw "objectID" JNull))) /\
  py_str (JInt sid) = str_int sid.
Proof.
  repeat split; cbn [field top_record new_record single_record hit_record dict_get String.eqb
                       Ascii.eqb Bool.eqb];
    try (now apply dict_get_absent).
Qed.

(** A story of the sample items API has only id, type and title: the other
    fields of its record are the defaults, and the url is the discussion
    link of the id. *)
Lemma missing_fields_get_defaults_witness :
  field "score" (top_record (JInt 4) (fields_of (sample_item 4))) = JInt 0 /\
  field "url" (top_record (JInt 4) (fields_of (sample_item 4)))
  = JStr "https://news.ycombinator.com/item?id=4".
Proof.
  pose proof (missing_fields_get_defaults (JInt 4) 4 (fields_of (sample_item 4))) as H.
  destruct H as [_ [Hscore [_ [_ [_ [_ [_ [_ [_ [Hurl _]]]]]]]]]].
  split.
  - apply Hscore. reflexivity.
  - apply Hurl. reflexivity.
Defined.

(** ** The [time_iso] field *)



(** ** Failures of the upstream *)



(** ** What a listing holds *)

Lemma listing_op_inr (path : string) (record : json -> dict -> json) (limit : Z)
    (up : Upstream) (stories : list json) :
  fst (run (listing_op path record limit) up) = inr (json_dumps (JList stories) 2) ->
  exists listing fetched,
    up [] (listing_request path) = answered listing /\
    map fst fetched = visited listing (Z.min (Z.max limit 1) 30) /\
    snd (run (listing_op path record limit) up)
    = (listing_request path, answered listing) :: map item_exchange fetched /\
    stories = flat_map (selected record) fetched.
Proof.
  unfold run. intros H.
  destruct (listing_op path record limit up []) as [res log] eqn:Hrun.
  cbn [fst snd] in *. subst res.
  change (listing_op path record limit)
    with (guarded (listing_body path record (Z.min (Z.max limit 1) 30))) in Hrun.
  apply guarded_inr_list in Hrun. apply listing_body_inr in Hrun.
  destruct Hrun as [listing [fetched [H1 [H2 [H3 H4]]]]].
  exists listing, fetched. inversion H4. repeat split; assumption.
Qed.

Lemma in_selected (record : json -> dict -> json) (fetched : list (json * json))
    (entry : json) :
  In entry (flat_map (selected record) fetched) ->
  exists story_id d,
    In (story_id, JDict d) fetched /\
    py_eq_str (dict_get d "type" JNull) "story" = true /\
    entry = record story_id d.
Proof.
  intros H. apply in_flat_map in H. destruct H as [[story_id doc] [Hin Hsel]].
  unfold selected in Hsel. cbn [fst snd] in Hsel.
  destruct doc; try contradiction.
  destruct (py_eq_str _ _) eqn:Ht; [| contradiction].
  destruct Hsel as [<- | []]. now exists story_id, fields.
Qed.

(** C3.  For every upstream and every limit, each entry of the array that a
    listing operation returns is the record of an item that was fetched,
    came back as an object and has type ["story"]: no entry comes from an
    item of another type or from a null item.  Such items are left out
    silently: when every fetched item is null or an object, the operation
    returns an array with one entry per story among them.  [get_story] on a
    non-empty object that is not a story returns the error
    ["Item {id} is not a story"]. *)
Theorem listings_hold_only_stories (up : Upstream) (limit : Z) :
  Forall (fun listing : string * (json -> dict -> json) * (Z -> M JsonText) =>
            let '(path, record, op) := listing in
            (forall stories,
               fst (run (op limit) up) = inr (json_dumps (JList stories) 2) ->
               forall entry, In entry stories ->
                 exists story_id d,
                   In (item_request story_id, answered (JDict d)) (snd (run (op limit) up)) /\
                   py_eq_str (dict_get d "type" JNull) "story" = true /\
                   entry = record story_id d) /\
            (forall ids item_of,
               up [] (listing_request path) = answered (JList ids) ->
               (forall log story_id, In story_id (firstn (listing_count limit) ids) ->
                  up log (item_request story_id) = answered (item_of story_id)) ->
               (forall story_id, In story_id (firstn (listing_count limit) ids) ->
                  item_of story_id = JNull \/ exists d, item_of story_id = JDict d) ->
               exists stories,
                 fst (run (op limit) up) = inr (json_dumps (JList stories) 2) /\
                 List.length stories
                 = List.length (filter (fun i => is_story (item_of i))
                                       (firstn (listing_count limit) ids))))
    [("/topstories.json", top_record, get_top_stories);
     ("/topstories.json", top_record, get_top_stories_http);
     ("/newstories.json", new_record, get_new_stories);
     ("/newstories.json", new_record, get_new_stories_http)] /\
  Forall (fun op : Z -> M JsonText =>
            forall story_id d,
              up [] (story_request story_id) = answered (JDict d) ->
              d <> [] ->
              is_story (JDict d) = false ->
              fst (run (op story_id) up)
              = inr (error_payload ("Item " ++ str_int story_id ++ " is not a story")))
    [get_story; get_story_http].
Proof.
  assert (H : forall path record,
            (forall stories,
               fst (run (listing_op path record limit) up) = inr (json_dumps (JList stories) 2) ->
               forall entry, In entry stories ->
                 exists story_id d,
                   In (item_request story_id, answered (JDict d))
                      (snd (run (listing_op path record limit) up)) /\
                   py_eq_str (dict_get d "type" JNull) "story" = true /\
                   entry = record story_id d) /\
            (forall ids item_of,
               up [] (listing_request path) = answered (JList ids) ->
               (forall log story_id, In story_id (firstn (listing_count limit) ids) ->
                  up log (item_request story_id) = answered (item_of story_id)) ->
               (forall story_id, In story_id (firstn (listing_count limit) ids) ->
                  item_of story_id = JNull \/ exists d, item_of story_id = JDict d) ->
               exists stories,
                 fst (run (listing_op path record limit) up)
                 = inr (json_dumps (JList stories) 2) /\
                 List.length stories
                 = List.length (filter (fun i => is_story (item_of i))
                                       (firstn (listing_count limit) ids)))).
  { intros path record. split.
    - intros stories Hres entry Hin.
      apply listing_op_inr in Hres. destruct Hres as [listing [fetched [_ [_ [Hlog ->]]]]].
      apply in_selected in Hin. destruct Hin as [story_id [d [Hf [Ht ->]]]].
      exists story_id, d. split; [| split; [exact Ht | reflexivity]].
      rewrite Hlog. right.
      change (item_request story_id, answered (JDict d))
        with (item_exchange (story_id, JDict d)).
      now apply in_map.
    - intros ids item_of Hlist Hserve Hshape. unfold run.
      rewrite (listing_op_run path record item_of up ids limit Hlist Hserve).
      + cbn [fst]. eexists. split; [reflexivity |].
        rewrite selected_filter_map, filter_map_served. now rewrite length_map.
      + intros story_id Hin. destruct (Hshape story_id Hin) as [-> | Hd];
          [left; reflexivity | right; exact Hd]. }
  split.
  - repeat (apply Forall_cons; [apply H |]). apply Forall_nil.
  - repeat (apply Forall_cons; [| try apply Forall_nil]).
    all: intros story_id d Hup Hd Ht;
      change (fst (story_op story_id up [])
              = inr (error_payload ("Item " ++ str_int story_id ++ " is not a story")));
      rewrite (story_op_answered story_id up (JDict d) Hup);
      destruct d as [| f rest]; [now contradiction Hd |];
      cbn [py_truthy negb]; unfold is_story in Ht; now rewrite Ht.
Qed.

(** Five top stories from the sample items API: the record of item 4 is in
    the result, and it comes from a fetched object of type story. *)
Lemma listings_hold_only_stories_witness :
  exists story_id d,
    In (item_request story_id, answered (JDict d))
       (snd (run (get_top_stories 5) sample_upstream)) /\
    py_eq_str (dict_get d "type" JNull) "story" = true /\
    top_record (JInt 4) (fields_of (sample_item 4)) = top_record story_id d.
Proof.
  destruct (listings_hold_only_stories sample_upstream 5) as [H _].
  apply Forall_inv in H. destruct H as [H _].
  apply (H (map (fun i => top_record (JInt i) (fields_of (sample_item i))) [1; 2; 4; 5])).
  - reflexivity.
  - right. right. left. reflexivity.
Defined.

(** ** Truncation, filtering and order *)

(** C5.  Against an upstream that serves the array [ids] as the listing and
    an item (null or an object) for each id, a listing operation fetches
    exactly the first [min(max(limit, 1), 30)] ids, in order, and returns
    the records of the stories among those, in order: the ids after the
    prefix are never fetched, so an item that is left out is not replaced
    and the array can be shorter than the limit.  With the ids [1, ..., 6],
    item 3 being a job, [get_top_stories(limit=5)] returns the four stories
    1, 2, 4, 5 in that order. *)
Theorem listing_truncates_before_filtering :
  (forall (up : Upstream) (ids : list json) (item_of : json -> json) (limit : Z),
     let taken := firstn (listing_count limit) ids in
     (forall log story_id, In story_id taken ->
        up log (item_request story_id) = answered (item_of story_id)) ->
     (forall story_id, In story_id taken ->
        item_of story_id = JNull \/ exists d, item_of story_id = JDict d) ->
     Forall (fun listing : string * (json -> dict -> json) * (Z -> M JsonText) =>
               let '(path, record, op) := listing in
               up [] (listing_request path) = answered (JList ids) ->
               run (op limit) up
               = (inr (json_dumps
                         (JList (map (fun i => record i (fields_of (item_of i)))
                                     (filter (fun i => is_story (item_of i)) taken))) 2),
                  (listing_request path, answered (JList ids))
                    :: map (fun i => (item_request i, answered (item_of i))) taken))
       [("/topstories.json", top_record, get_top_stories);
        ("/topstories.json", top_record, get_top_stories_http);
        ("/newstories.json", new_record, get_new_stories);
        ("/newstories.json", new_record, get_new_stories_http)] /\
     (List.length (filter (fun i => is_story (item_of i)) taken) <= listing_count limit)%nat) /\
  (exists stories,
     fst (run (get_top_stories 5) sample_upstream) = inr (json_dumps (JList stories) 2) /\
     map (field "id") stories = [JInt 1; JInt 2; JInt 4; JInt 5] /\
     List.length stories = 4%nat /\
     map fst (snd (run (get_top_stories 5) sample_upstream))
     = listing_request "/topstories.json" :: map item_request (map JInt [1; 2; 3; 4; 5])).
Proof.
  split.
  - intros up ids item_of limit taken Hserve Hshape.
    assert (Hshape' : forall story_id, In story_id taken ->
              py_truthy (item_of story_id) = false \/ exists d, item_of story_id = JDict d).
    { intros story_id Hin. destruct (Hshape story_id Hin) as [-> | Hd];
        [left; reflexivity | right; exact Hd]. }
    assert (H : forall path record,
              up [] (listing_request path) = answered (JList ids) ->
              run (listing_op path record limit) up
              = (inr (json_dumps
                        (JList (map (fun i => record i (fields_of (item_of i)))
                                    (filter (fun i => is_story (item_of i)) taken))) 2),
                 (listing_request path, answered (JList ids))
                   :: map (fun i => (item_request i, answered (item_of i))) taken)).
    { intros path record Hlist. unfold run.
      rewrite (listing_op_run path record item_of up ids limit Hlist Hserve Hshape').
      fold taken. rewrite selected_filter_map, filter_map_served, map_map. reflexivity. }
    split.
    + repeat (apply Forall_cons; [apply H |]). apply Forall_nil.
    + etransitivity; [apply filter_length_le |]. unfold taken. apply firstn_le_length.
  - eexists. split; [vm_compute; reflexivity |]. repeat split.
Qed.

(** The general statement at the sample items API and limit 5. *)
Lemma listing_truncates_before_filtering_witness :
  run (get_top_stories 5) sample_upstream
  = (inr (json_dumps
            (JList (map (fun i => top_record i (fields_of (sample_item_of i)))
                        (map JInt [1; 2; 4; 5]))) 2),
     (listing_request "/topstories.json", answered (JList (map JInt [1; 2; 3; 4; 5; 6])))
       :: map (fun i => (item_request i, answered (sample_item_of i)))
              (map JInt [1; 2; 3; 4; 5])).
Proof.
  destruct listing_truncates_before_filtering as [H _].
  destruct (H sample_upstream (map JInt [1; 2; 3; 4; 5; 6]) sample_item_of 5) as [Hops _].
  - intros log story_id Hin.
    repeat (destruct Hin as [<- | Hin]; [reflexivity |]). destruct Hin.
  - intros story_id Hin.
    repeat (destruct Hin as [<- | Hin]; [right; eexists; reflexivity |]). destruct Hin.
  - apply Forall_inv in Hops. apply Hops. reflexivity.
Defined.

(** C6.  For every upstream: when a listing operation returns an array, the
    items were fetched one per id, in the order of the truncated id list, and
    the array is the records of the stories among the fetched items in that
    same order; when [search_stories] returns an array, it is the records
    of the hits in the order of the upstream [hits] array, and it does
    return that array when the answer holds an array of objects.  Nothing
    is sorted. *)
Theorem output_order_is_upstream_order (up : Upstream) (limit : Z) :
  Forall (fun listing : string * (json -> dict -> json) * (Z -> M JsonText) =>
            let '(path, record, op) := listing in
            forall stories,
              fst (run (op limit) up) = inr (json_dumps (JList stories) 2) ->
              exists listing fetched,
                up [] (listing_request path) = answered listing /\
                snd (run (op limit) up)
                = (listing_request path, answered listing)
                    :: map (fun f => (item_request (fst f), answered (snd f))) fetched /\
                stories
                = map (fun f => record (fst f) (fields_of (snd f)))
                      (filter (fun f => is_story (snd f)) fetched) /\
                (forall ids, listing = JList ids ->
                   map fst fetched = firstn (listing_count limit) ids))
    [("/topstories.json", top_record, get_top_stories);
     ("/topstories.json", top_record, get_top_stories_http);
     ("/newstories.json", new_record, get_new_stories);
     ("/newstories.json", new_record, get_new_stories_http)] /\
  Forall (fun op : string -> Z -> M JsonText =>
            (forall query stories,
               fst (run (op query limit) up) = inr (json_dumps (JList stories) 2) ->
               exists data hits,
                 up [] (search_request query (Z.min (Z.max limit 1) 20))
                 = answered (JDict data) /\
                 stories = map hit_record hits /\
                 (forall raw_hits, dict_get data "hits" (JList []) = JList raw_hits ->
                    raw_hits = map JDict hits)) /\
            (forall query data hits,
               up [] (search_request query (Z.min (Z.max limit 1) 20))
               = answered (JDict data) ->
               dict_get data "hits" (JList []) = JList (map JDict hits) ->
               fst (run (op query limit) up)
               = inr (json_dumps (JList (map hit_record hits)) 2)))
    [search_stories; search_stories_http].
Proof.
  split.
  - assert (H : forall path record stories,
              fst (run (listing_op path record limit) up) = inr (json_dumps (JList stories) 2) ->
              exists listing fetched,
                up [] (listing_request path) = answered listing /\
                snd (run (listing_op path record limit) up)
                = (listing_request path, answered listing)
                    :: map (fun f => (item_request (fst f), answered (snd f))) fetched /\
                stories
                = map (fun f => record (fst f) (fields_of (snd f)))
                      (filter (fun f => is_story (snd f)) fetched) /\
                (forall ids, listing = JList ids ->
                   map fst fetched = firstn (listing_count limit) ids)).
    { intros path record stories Hres.
      apply listing_op_inr in Hres.
      destruct Hres as [listing [fetched [H1 [H2 [H3 H4]]]]].
      exists listing, fetched. split; [exact H1 |]. split; [exact H3 |].
      split; [rewrite H4; apply selected_filter_map |].
      intros ids ->. rewrite H2. apply visited_list. lia. }
    repeat (apply Forall_cons; [apply H |]). apply Forall_nil.
  - assert (H : (forall query stories,
               fst (run (search_op query limit) up) = inr (json_dumps (JList stories) 2) ->
               exists data hits,
                 up [] (search_request query (Z.min (Z.max limit 1) 20))
                 = answered (JDict data) /\
                 stories = map hit_record hits /\
                 (forall raw_hits, dict_get data "hits" (JList []) = JList raw_hits ->
                    raw_hits = map JDict hits)) /\
            (forall query data hits,
               up [] (search_request query (Z.min (Z.max limit 1) 20))
               = answered (JDict data) ->
               dict_get data "hits" (JList []) = JList (map JDict hits) ->
               fst (run (search_op query limit) up)
               = inr (json_dumps (JList (map hit_record hits)) 2))).
    { split.
      - intros query stories Hres. unfold run in Hres.
        destruct (search_op query limit up []) as [res log] eqn:Hrun.
        cbn [fst] in Hres. subst res.
        change (search_op query limit)
          with (guarded (search_body query (Z.min (Z.max limit 1) 20))) in Hrun.
        apply guarded_inr_list in Hrun. apply search_body_inr in Hrun.
        destruct Hrun as [data [ds [H1 [H2 H3]]]].
        exists data, ds. inversion H2. repeat split; assumption.
      - intros query data hits Hup Hhits. unfold run.
        now rewrite (search_op_run query limit up data hits Hup Hhits). }
    repeat (apply Forall_cons; [exact H |]). apply Forall_nil.
Qed.

(** [search_stories(query="rust", limit=2)] against the sample search API,
    whose answer has two hits: the two records, in the order of the hits. *)
Lemma output_order_is_upstream_order_witness :
  fst (run (search_stories "rust" 2) sample_upstream)
  = inr (json_dumps (JList (map hit_record sample_hits)) 2).
Proof.
  destruct (output_order_is_upstream_order sample_upstream 2) as [_ H].
  apply Forall_inv in H. destruct H as [_ H].
  apply (H "rust" [("hits", JList (map JDict sample_hits))] sample_hits); reflexivity.
Defined.

(** ** Timeouts *)

Lemma story_op_requests (story_id : Z) (up : Upstream) :
  map fst (snd (run (story_op story_id) up)) = [story_request story_id].
Proof.
  unfold run. change (story_op story_id) with (guarded (story_body story_id)).
  rewrite guarded_log, story_body_log. reflexivity.
Qed.

(** C8, as the code has it.  For every upstream: a listing operation issues
    the listing fetch with a timeout of 10 and then only item fetches, each
    with a timeout of 5; [get_story] issues one fetch, of the item of its
    [story_id], with a timeout of 10; [search_stories] issues one fetch,
    with a timeout of 10. *)
Theorem fetch_timeouts (up : Upstream) :
  (forall limit,
     Forall (fun listing : string * (Z -> M JsonText) =>
               let (path, op) := listing in
               exists requests,
                 map fst (snd (run (op limit) up)) = listing_request path :: requests /\
                 timeout (listing_request path) = 10 /\
                 Forall (fun r => timeout r = 5 /\ exists story_id, r = item_request story_id)
                        requests)
       [("/topstories.json", get_top_stories); ("/topstories.json", get_top_stories_http);
        ("/newstories.json", get_new_stories); ("/newstories.json", get_new_stories_http)]) /\
  (forall story_id,
     Forall (fun op : Z -> M JsonText =>
               map fst (snd (run (op story_id) up)) = [story_request story_id] /\
               timeout (story_request story_id) = 10 /\
               url (story_request story_id) = url (item_request (JInt story_id)))
       [get_story; get_story_http]) /\
  (forall query limit,
     Forall (fun op : string -> Z -> M JsonText =>
               map fst (snd (run (op query limit) up))
               = [search_request query (Z.min (Z.max limit 1) 20)] /\
               timeout (search_request query (Z.min (Z.max limit 1) 20)) = 10)
       [search_stories; search_stories_http]).
Proof.
  split; [| split].
  - intros limit.
    assert (H : forall path record,
              exists requests,
                map fst (snd (run (listing_op path record limit) up))
                = listing_request path :: requests /\
                timeout (listing_request path) = 10 /\
                Forall (fun r => timeout r = 5 /\ exists story_id, r = item_request story_id)
                       requests).
    { intros path record.
      destruct (listing_op_requests path record limit up) as [listing [k [H _]]].
      eexists. split; [exact H |]. split; [reflexivity |].
      apply Forall_forall. intros r Hr. apply in_map_iff in Hr.
      destruct Hr as [story_id [<- _]]. split; [reflexivity | now exists story_id]. }
    apply Forall_cons; [apply (H _ top_record) |].
    apply Forall_cons; [apply (H _ top_record) |].
    apply Forall_cons; [apply (H _ new_record) |].
    apply Forall_cons; [apply (H _ new_record) |].
    apply Forall_nil.
  - intros story_id.
    repeat (apply Forall_cons;
            [split; [apply story_op_requests | split; reflexivity] |]).
    apply Forall_nil.
  - intros query limit.
    repeat (apply Forall_cons; [split; [apply search_op_requests | reflexivity] |]).
    apply Forall_nil.
Qed.

(** C8 as stated does not hold: the fetch of [get_story] is the fetch of an
    item by id and its timeout is 10, not 5. *)
Lemma get_story_fetch_timeout_is_not_5 :
  ~ (forall (up : Upstream) (story_id : Z) (r : Request),
       In r (map fst (snd (run (get_story story_id) up))) ->
       url r = url (item_request (JInt story_id)) ->
       timeout r = 5).
Proof.
  intros H.
  specialize (H sample_upstream 8863 (story_request 8863)).
  assert (Habs : timeout (story_request 8863) = 5).
  { apply H; [left; reflexivity | reflexivity]. }
  discriminate Habs.
Qed.

(** * Further properties of the operations *)

(** ** No fetch after a fault *)

Lemma fault_none_answered (ev : Event) :
  fault ev = None <-> exists doc, snd ev = answered doc.
Proof.
  unfold fault, answered. destruct (snd ev) as [e | [[m|] [m'|doc]]]; cbn [status_error body].
  all: split; intros H; try discriminate; try (destruct H; discriminate).
  - now exists doc.
  - reflexivity.
Qed.

Lemma sound_snoc (log : list Event) (ev : Event) :
  sound log -> fault ev = None -> sound (log ++ [ev]).
Proof.
  intros Hl He. apply Forall_app. split; [exact Hl | now constructor].
Qed.

Lemma stopping_pure {A : Type} (m : M A) :
  (forall up log, snd (m up log) = log) -> stopping m.
Proof. intros H up log Hc. left. now rewrite H. Qed.

Lemma stopping_bind {A B : Type} (m : M A) (k : A -> M B) :
  stopping m -> (forall x, stopping (k x)) -> stopping (bind m k).
Proof.
  intros Hm Hk up log Hc. unfold bind.
  specialize (Hm up log Hc).
  destruct (m up log) as [[e | x] log1].
  - destruct Hm as [Hm | [log0 [ev [e' [H1 [H2 [H3 H4]]]]]]]; [left; exact Hm |].
    right. exists log0, ev, e'. cbn [fst snd] in *.
    injection H4 as ->. repeat split; assumption.
  - apply Hk. destruct Hm as [Hm | [log0 [ev [e' [H1 [H2 [H3 H4]]]]]]]; [exact Hm |].
    cbn [fst] in H4. discriminate.
Qed.

Lemma stopping_fetch {B : Type} (u : string) (p : dict) (t : Z) (k : json -> M B) :
  (forall doc, stopping (k doc)) ->
  stopping (response <- httpx_get u p t ;;
            raise_for_status response ;;;
            doc <- response_json response ;;
            k doc).
Proof.
  intros Hk up log Hc. rewrite fetch_bind.
  set (req := {| url := u; params := p; timeout := t |}). cbv zeta.
  destruct (up log req) as [e | [[m|] [m'|doc]]] eqn:Hup; cbn [status_error body].
  - right. exists log, (req, Raises e), e.
    cbn [fst snd]. repeat split; assumption || reflexivity.
  - right. exists log, (req, Responds {| status_error := Some m; body := inl m' |}),
      (HTTPStatusError m).
    cbn [fst snd]. repeat split; assumption || reflexivity.
  - right. exists log, (req, Responds {| status_error := Some m; body := inr doc |}),
      (HTTPStatusError m).
    cbn [fst snd]. repeat split; assumption || reflexivity.
  - right. exists log, (req, Responds {| status_error := None; body := inl m' |}),
      (JSONDecodeError m').
    cbn [fst snd]. repeat split; assumption || reflexivity.
  - apply Hk. now apply sound_snoc.
Qed.

Lemma stopping_for_each {S : Type} (body : json -> S -> M S) (xs : list json) :
  (forall x s, stopping (body x s)) ->
  forall s, stopping (for_each xs body s).
Proof.
  intros Hb. induction xs as [| x rest IH]; intros s; cbn [for_each].
  - now apply stopping_pure.
  - apply stopping_bind; [apply Hb | exact IH].
Qed.

Ltac stopping_step :=
  match goal with
  | |- stopping (if ?b then _ else _) => destruct b
  | |- stopping (bind (httpx_get _ _ _) _) => apply stopping_fetch; intros
  | |- stopping (bind _ _) => apply stopping_bind; intros
  | |- stopping (for_each _ _ _) => apply stopping_for_each; intros
  | |- stopping (ret _) => now apply stopping_pure
  | |- stopping (with_get ?v) => apply stopping_pure; intros; now destruct v
  | |- stopping (py_iter ?v) => apply stopping_pure; intros; now destruct v
  | |- stopping (py_slice_to ?v _) => apply stopping_pure; intros; now destruct v
  end.

Lemma stopping_body_of (c : Call) : stopping (body_of c).
Proof.
  destruct c; cbn [body_of];
    unfold listing_body, item_step, story_body, search_body, hit_step;
    repeat stopping_step.
Qed.

Lemma guarded_stops (body : M JsonText) (up : Upstream) :
  stopping body ->
  (forall log0 ev, snd (guarded body up []) = (log0 ++ [ev])%list ->
     Forall (fun e => exists doc, snd e = answered doc) log0) /\
  (forall ev, In ev (snd (guarded body up [])) -> fault ev <> None ->
     exists e log0,
       fault ev = Some e /\
       snd (guarded body up []) = (log0 ++ [ev])%list /\
       fst (guarded body up []) = inr (error_payload (error_message e))).
Proof.
  intros Hs. specialize (Hs up [] (Forall_nil _)).
  rewrite guarded_log, guarded_run.
  destruct (body up []) as [res log]. unfold stops_at_fault in Hs. cbn [fst snd] in *.
  assert (Hans : forall l, sound l -> Forall (fun e => exists doc, snd e = answered doc) l).
  { intros l Hl. unfold sound in Hl. rewrite Forall_forall in *.
    intros e He. now apply fault_none_answered, Hl. }
  split.
  - intros log0 ev Hlog.
    destruct Hs as [Hc | [l0 [ev0 [e [H1 [H2 [H3 H4]]]]]]].
    + subst log. apply Forall_app in Hc. now apply Hans.
    + subst log. apply app_inj_tail in Hlog. destruct Hlog as [-> _]. now apply Hans.
  - intros ev Hin Hf.
    destruct Hs as [Hc | [l0 [ev0 [e [H1 [H2 [H3 H4]]]]]]].
    + exfalso. apply Hf. unfold sound in Hc. rewrite Forall_forall in Hc. now apply Hc.
    + subst log res. apply in_app_or in Hin. destruct Hin as [Hin | [<- | []]].
      * exfalso. apply Hf. unfold sound in H2. rewrite Forall_forall in H2. now apply H2.
      * exists e, l0. repeat split; assumption || reflexivity.
Qed.

(** X1.  For every call and every upstream, every exchange of an operation
    except possibly the last one was answered with a status of success and a
    JSON document: the operation makes no fetch after a fetch that raised,
    that had another status or whose body was not JSON. *)
Theorem no_fetch_after_a_fault (c : Call) (up : Upstream) :
  Forall (fun dispatch : Call -> M JsonText =>
            forall log0 ev,
              snd (run (dispatch c) up) = (log0 ++ [ev])%list ->
              Forall (fun e => exists doc, snd e = answered doc) log0)
    [tool; http].
Proof.
  unfold run.
  repeat (apply Forall_cons; [| try apply Forall_nil]).
  - rewrite tool_guarded. apply guarded_stops, stopping_body_of.
  - rewrite http_guarded. apply guarded_stops, stopping_body_of.
Qed.

(** Five top stories from the items API that times out on item 4: the three
    exchanges before the failed one were all answered. *)
Lemma no_fetch_after_a_fault_witness :
  Forall (fun e => exists doc, snd e = answered doc)
    [(listing_request "/topstories.json", answered (JList (map JInt [1; 2; 3; 4; 5; 6])));
     (item_request (JInt 1), answered (sample_item 1));
     (item_request (JInt 2), answered (sample_item 2));
     (item_request (JInt 3), answered (sample_item 3))].
Proof.
  apply (Forall_inv (no_fetch_after_a_fault (TopStories 5) flaky_upstream)
           _ (item_request (JInt 4), Raises (RequestError "timed out"))).
  reflexivity.
Defined.

(** X2.  For every call and every upstream, a response with a status of
    success whose body is not JSON ends the operation: it is the last
    exchange, and the result is the error document
    ["Unexpected error: "] followed by the message of the decoder. *)
Theorem undecodable_body_gives_unexpected_error (c : Call) (up : Upstream)
    (ev : Event) (msg : string) :
  snd ev = Responds {| status_error := None; body := inl msg |} ->
  Forall (fun dispatch : Call -> M JsonText =>
            In ev (snd (run (dispatch c) up)) ->
            fst (run (dispatch c) up) = inr (error_payload ("Unexpected error: " ++ msg)) /\
            exists log0, snd (run (dispatch c) up) = (log0 ++ [ev])%list)
    [tool; http].
Proof.
  intros Hev.
  assert (Hf : fault ev = Some (JSONDecodeError msg)) by (unfold fault; now rewrite Hev).
  assert (H : forall body, stopping body ->
            In ev (snd (guarded body up [])) ->
            fst (guarded body up []) = inr (error_payload ("Unexpected error: " ++ msg)) /\
            exists log0, snd (guarded body up []) = (log0 ++ [ev])%list).
  { intros body Hs Hin.
    destruct (guarded_stops body up Hs) as [_ H].
    destruct (H ev Hin) as [e [log0 [He [Hlog Hres]]]]; [rewrite Hf; discriminate |].
    rewrite Hf in He. injection He as <-. split; [exact Hres | now exists log0]. }
  unfold run.
  repeat (apply Forall_cons; [| try apply Forall_nil]).
  - rewrite tool_guarded. apply H, stopping_body_of.
  - rewrite http_guarded. apply H, stopping_body_of.
Qed.

(** Three top stories from the items API that serves a page that is not
    JSON for item 2. *)
Lemma undecodable_body_gives_unexpected_error_witness :
  fst (run (get_top_stories 3) garbled_upstream)
  = inr (error_payload "Unexpected error: Expecting value: line 1 column 1 (char 0)").
Proof.
  set (ev := (item_request (JInt 2),
              Responds {| status_error := None;
                          body := inl "Expecting value: line 1 column 1 (char 0)" |})).
  assert (Hev : snd ev = Responds {| status_error := None;
                                     body := inl "Expecting value: line 1 column 1 (char 0)" |})
    by reflexivity.
  pose proof (Forall_inv (undecodable_body_gives_unexpected_error
                            (TopStories 3) garbled_upstream ev _ Hev)) as H.
  apply H. right. right. left. reflexivity.
Defined.

(** ** Items, listings and answers of the wrong type *)

Lemma item_step_wrong_type (record : json -> dict -> json) (story_id doc : json)
    (acc : list json) (up : Upstream) (log : list Event) :
  up log (item_request story_id) = answered doc ->
  py_truthy doc = true ->
  (forall d, doc <> JDict d) ->
  fst (item_step record story_id acc up log)
  = inl (AttributeError ("'" ++ type_name doc ++ "' object has no attribute 'get'")).
Proof.
  intros Hup Ht Hd. unfold item_step. rewrite fetch_bind. cbv zeta.
  change {| url := _; params := []; timeout := 5 |} with (item_request story_id).
  rewrite Hup. unfold answered; cbn [status_error body]. rewrite Ht.
  destruct doc; try reflexivity. now contradiction (Hd fields).
Qed.

(** In the loop, an item that is truthy and not an object ends the loop with
    the [AttributeError] of its type. *)
Lemma for_each_items_wrong_type (record : json -> dict -> json) (ids : list json) :
  forall (up : Upstream) (log : list Event) (acc : list json),
    exists evs,
      snd (for_each ids (item_step record) acc up log) = (log ++ evs)%list /\
      forall story_id doc,
        In (item_request story_id, answered doc) evs ->
        py_truthy doc = true ->
        (forall d, doc <> JDict d) ->
        fst (for_each ids (item_step record) acc up log)
        = inl (AttributeError ("'" ++ type_name doc ++ "' object has no attribute 'get'")).
Proof.
  induction ids as [| id0 rest IH]; intros up log acc.
  - exists []. cbn. split; [now rewrite app_nil_r | intros ? ? []].
  - cbn [for_each]. unfold bind.
    pose proof (item_step_log record id0 acc up log) as Hl.
    destruct (item_step record id0 acc up log) as [[e | acc'] log1] eqn:Hs; cbn [snd] in Hl.
    + exists [(item_request id0, up log (item_request id0))]. split; [exact Hl |].
      intros story_id doc [Heq | []] Ht Hd. cbn [fst].
      injection Heq as _ Hup.
      pose proof (item_step_wrong_type record id0 doc acc up log Hup Ht Hd) as Hw.
      rewrite Hs in Hw. exact Hw.
    + destruct (IH up log1 acc') as [evs [Hlog Hbad]].
      exists ((item_request id0, up log (item_request id0)) :: evs). split.
      * rewrite Hlog, Hl. now rewrite <- app_assoc.
      * intros story_id doc [Heq | Hin] Ht Hd; [| exact (Hbad story_id doc Hin Ht Hd)].
        exfalso. injection Heq as _ Hup.
        pose proof (item_step_wrong_type record id0 doc acc up log Hup Ht Hd) as Hw.
        rewrite Hs in Hw. discriminate Hw.
Qed.

Lemma listing_request_not_item (path : string) (story_id : json) :
  listing_request path <> item_request story_id.
Proof. intros H. apply (f_equal timeout) in H. discriminate H. Qed.

Lemma listing_op_wrong_type_item (path : string) (record : json -> dict -> json)
    (limit : Z) (up : Upstream) (story_id doc : json) :
  In (item_request story_id, answered doc) (snd (run (listing_op path record limit) up)) ->
  py_truthy doc = true ->
  (forall d, doc <> JDict d) ->
  fst (run (listing_op path record limit) up)
  = inr (error_payload
           ("Unexpected error: '" ++ type_name doc ++ "' object has no attribute 'get'")).
Proof.
  unfold run.
  change (listing_op path record limit)
    with (guarded (listing_body path record (Z.min (Z.max limit 1) 30))).
  rewrite guarded_log, guarded_run.
  set (n := Z.min (Z.max limit 1) 30).
  unfold listing_body. rewrite fetch_bind. cbv zeta.
  change {| url := _; params := []; timeout := 10 |} with (listing_request path).
  destruct (up [] (listing_request path)) as [e | [[m|] [m'|listing]]];
    cbn [status_error body fst snd app].
  1-4: intros [Heq | []]; discriminate Heq.
  set (ev1 := (listing_request path, Responds {| status_error := None; body := inr listing |})).
  assert (Hnot : ev1 <> (item_request story_id, answered doc)).
  { intros Heq. apply (f_equal fst) in Heq. now apply listing_request_not_item in Heq. }
  destruct (slice_iter_log listing n
              (fun ids => stories <- for_each ids (item_step record) [] ;;
                          ret (json_dumps (JList stories) 2))
              up [ev1]) as [Hl | Hr]; cbv beta in *.
  - intros Hin. rewrite Hl in Hin. destruct Hin as [Heq | []]. now contradiction Hnot.
  - rewrite Hr. unfold bind.
    destruct (for_each_items_wrong_type record (visited listing n) up [ev1] [])
      as [evs [Hlog Hbad]].
    destruct (for_each (visited listing n) (item_step record) [] up [ev1])
      as [[e | stories] log2] eqn:Hloop; cbn [fst snd] in *.
    + intros Hin Ht Hd. subst log2. destruct Hin as [Heq | Hin]; [now contradiction Hnot |].
      specialize (Hbad story_id doc Hin Ht Hd). injection Hbad as ->. reflexivity.
    + intros Hin Ht Hd. subst log2. destruct Hin as [Heq | Hin]; [now contradiction Hnot |].
      specialize (Hbad story_id doc Hin Ht Hd). discriminate Hbad.
Qed.

(** X3.  For every upstream and every limit, when an item fetch of a
    listing operation is answered with a document that is truthy and not an
    object (a number, a string, an array, [true]), the operation returns no
    array: the result is the error document
    ["Unexpected error: '<type>' object has no attribute 'get'"]. *)
Theorem wrong_type_item_aborts_listing (up : Upstream) (limit : Z) (story_id doc : json)
    (Htruthy : py_truthy doc = true) (Hshape : forall d, doc <> JDict d) :
  Forall (fun op : Z -> M JsonText =>
            In (item_request story_id, answered doc) (snd (run (op limit) up)) ->
            fst (run (op limit) up)
            = inr (error_payload
                     ("Unexpected error: '" ++ type_name doc
                        ++ "' object has no attribute 'get'")))
    [get_top_stories; get_top_stories_http; get_new_stories; get_new_stories_http].
Proof.
  assert (H : forall path record,
            In (item_request story_id, answered doc)
               (snd (run (listing_op path record limit) up)) ->
            fst (run (listing_op path record limit) up)
            = inr (error_payload
                     ("Unexpected error: '" ++ type_name doc
                        ++ "' object has no attribute 'get'"))).
  { intros path record Hin. now apply (listing_op_wrong_type_item _ _ _ _ story_id). }
  apply Forall_cons; [apply (H "/topstories.json" top_record) |].
  apply Forall_cons; [apply (H "/topstories.json" top_record) |].
  apply Forall_cons; [apply (H "/newstories.json" new_record) |].
  apply Forall_cons; [apply (H "/newstories.json" new_record) |].
  apply Forall_nil.
Qed.

(** The two newest stories from the items API that serves the number 7 for
    item 5: the new listing starts with the ids 6 and 5. *)
Lemma wrong_type_item_aborts_listing_witness :
  fst (run (get_new_stories 2) garbled_upstream)
  = inr (error_payload "Unexpected error: 'int' object has no attribute 'get'").
Proof.
  assert (Htruthy : py_truthy (JInt 7) = true) by reflexivity.
  assert (Hshape : forall d, JInt 7 <> JDict d) by (intros d; discriminate).
  pose proof (wrong_type_item_aborts_listing garbled_upstream 2 (JInt 5) (JInt 7)
                Htruthy Hshape) as H.
  apply Forall_inv_tail, Forall_inv_tail, Forall_inv in H.
  apply H. right. right. left. reflexivity.
Defined.

(** ** Search answers *)

Lemma for_each_hits_wrong_type (pre : list dict) (hit : json) (post : list json) :
  (forall d, hit <> JDict d) ->
  forall (acc : list json) (up : Upstream) (log : list Event),
    for_each (map JDict pre ++ hit :: post) hit_step acc up log
    = (inl (AttributeError ("'" ++ type_name hit ++ "' object has no attribute 'get'")), log).
Proof.
  intros Hd. induction pre as [| d rest IH]; intros acc up log; cbn [map app for_each].
  - unfold bind, hit_step, with_get, bind. destruct hit; try reflexivity.
    now contradiction (Hd fields).
  - unfold bind at 1. unfold hit_step, with_get, bind, ret. apply IH.
Qed.

Lemma for_each_hits_any_log (hits : list json) :
  forall (acc : list json) (up : Upstream) (log : list Event),
    for_each hits hit_step acc up log = (fst (for_each hits hit_step acc up []), log).
Proof.
  induction hits as [| h rest IH]; intros acc up log; cbn [for_each]; [reflexivity |].
  unfold bind, hit_step, with_get. destruct h; try reflexivity.
  unfold bind, ret. cbn [fst]. apply IH.
Qed.

Lemma search_op_answered (query : string) (limit : Z) (up : Upstream) (doc : json) :
  up [] (search_request query (Z.min (Z.max limit 1) 20)) = answered doc ->
  search_op query limit up []
  = (match doc with
     | JDict data =>
         match py_iter (dict_get data "hits" (JList [])) up [] with
         | (inr hits, _) =>
             match for_each hits hit_step [] up [] with
             | (inr stories, _) => inr (json_dumps (JList stories) 2)
             | (inl e, _) => inr (error_payload (error_message e))
             end
         | (inl e, _) => inr (error_payload (error_message e))
         end
     | _ => inr (error_payload
                   ("Unexpected error: '" ++ type_name doc ++ "' object has no attribute 'get'"))
     end,
     [(search_request query (Z.min (Z.max limit 1) 20), answered doc)]).
Proof.
  intros Hup. set (n := Z.min (Z.max limit 1) 20) in *.
  change (search_op query limit) with (guarded (search_body query n)).
  rewrite guarded_run. unfold search_body. rewrite fetch_bind. cbv zeta.
  change {| url := _; params := _; timeout := 10 |} with (search_request query n).
  rewrite Hup. unfold answered at 1. cbn [status_error body app].
  unfold bind at 1. unfold with_get. destruct doc; try reflexivity.
  unfold ret at 1. unfold bind at 1.
  set (log1 := [(search_request query n, Responds {| status_error := None; body := inr (JDict fields) |})]).
  assert (Hiter : forall v l, py_iter v up l = (fst (py_iter v up []), l)).
  { intros v l. now destruct v. }
  rewrite (Hiter _ log1). destruct (py_iter _ up []) as [[e | hits] l0]; cbn [fst].
  - now destruct e.
  - unfold bind.
    assert (Hloop := for_each_hits_any_log hits [] up).
    rewrite (Hloop log1).
    destruct (for_each hits hit_step [] up []) as [[e | stories] l1]; cbn [fst].
    + now destruct e.
    + reflexivity.
Qed.

(** X4.  For every upstream: a search answer that is not an object, or
    whose ["hits"] array holds an element that is not an object, makes
    [search_stories] return the error document
    ["Unexpected error: '<type>' object has no attribute 'get'"] and no
    array, after its single exchange. *)
Theorem wrong_type_hit_aborts_search (up : Upstream) (query : string) (limit : Z)
    (doc : json)
    (Hup : up [] (search_request query (Z.min (Z.max limit 1) 20)) = answered doc) :
  Forall (fun op : string -> Z -> M JsonText =>
            ((forall d, doc <> JDict d) ->
             run (op query limit) up
             = (inr (error_payload
                       ("Unexpected error: '" ++ type_name doc
                          ++ "' object has no attribute 'get'")),
                [(search_request query (Z.min (Z.max limit 1) 20), answered doc)])) /\
            (forall data pre hit post,
               doc = JDict data ->
               dict_get data "hits" (JList []) = JList (map JDict pre ++ hit :: post) ->
               (forall d, hit <> JDict d) ->
               run (op query limit) up
               = (inr (error_payload
                         ("Unexpected error: '" ++ type_name hit
                            ++ "' object has no attribute 'get'")),
                  [(search_request query (Z.min (Z.max limit 1) 20), answered doc)])))
    [search_stories; search_stories_http].
Proof.
  assert (H : ((forall d, doc <> JDict d) ->
             run (search_op query limit) up
             = (inr (error_payload
                       ("Unexpected error: '" ++ type_name doc
                          ++ "' object has no attribute 'get'")),
                [(search_request query (Z.min (Z.max limit 1) 20), answered doc)])) /\
            (forall data pre hit post,
               doc = JDict data ->
               dict_get data "hits" (JList []) = JList (map JDict pre ++ hit :: post) ->
               (forall d, hit <> JDict d) ->
               run (search_op query limit) up
               = (inr (error_payload
                         ("Unexpected error: '" ++ type_name hit
                            ++ "' object has no attribute 'get'")),
                  [(search_request query (Z.min (Z.max limit 1) 20), answered doc)]))).
  { unfold run. rewrite (search_op_answered query limit up doc Hup). split.
    - intros Hd. destruct doc; try reflexivity. now contradiction (Hd fields).
    - intros data pre hit post -> Hhits Hd. rewrite Hhits. cbn [py_iter]. unfold ret.
      now rewrite (for_each_hits_wrong_type pre hit post Hd). }
  repeat (apply Forall_cons; [exact H |]). apply Forall_nil.
Qed.

(** A search whose answer has a string as its second hit. *)
Lemma wrong_type_hit_aborts_search_witness :
  run (search_stories "rust" 5) odd_search_upstream
  = (inr (error_payload "Unexpected error: 'str' object has no attribute 'get'"),
     [(search_request "rust" 5,
       answered (JDict [("hits", JList [JDict [("objectID", JStr "101")]; JStr "oops"])]))]).
Proof.
  assert (Hup : odd_search_upstream [] (search_request "rust" (Z.min (Z.max 5 1) 20))
                = answered (JDict [("hits", JList [JDict [("objectID", JStr "101")];
                                                   JStr "oops"])]))
    by reflexivity.
  pose proof (Forall_inv (wrong_type_hit_aborts_search odd_search_upstream "rust" 5 _ Hup))
    as [_ H].
  apply (H [("hits", JList [JDict [("objectID", JStr "101")]; JStr "oops"])]
           [[("objectID", JStr "101")]] (JStr "oops") []).
  - reflexivity.
  - reflexivity.
  - intros d. discriminate.
Defined.

(** X5.  For every upstream and every limit: when the listing is answered
    with [null], a boolean or a number instead of an array, the listing
    operation makes no item fetch and returns the error document
    ["Unexpected error: '<type>' object is not subscriptable"]. *)
Theorem listing_of_wrong_type_is_an_error (up : Upstream) (limit : Z) (doc : json)
    (Hdoc : doc = JNull \/ (exists b, doc = JBool b) \/ (exists n, doc = JInt n)) :
  Forall (fun listing : string * (Z -> M JsonText) =>
            let (path, op) := listing in
            up [] (listing_request path) = answered doc ->
            run (op limit) up
            = (inr (error_payload
                      ("Unexpected error: '" ++ type_name doc
                         ++ "' object is not subscriptable")),
               [(listing_request path, answered doc)]))
    [("/topstories.json", get_top_stories); ("/topstories.json", get_top_stories_http);
     ("/newstories.json", get_new_stories); ("/newstories.json", get_new_stories_http)].
Proof.
  assert (H : forall path record,
            up [] (listing_request path) = answered doc ->
            run (listing_op path record limit) up
            = (inr (error_payload
                      ("Unexpected error: '" ++ type_name doc
                         ++ "' object is not subscriptable")),
               [(listing_request path, answered doc)])).
  { intros path record Hup. unfold run.
    change (listing_op path record limit)
      with (guarded (listing_body path record (Z.min (Z.max limit 1) 30))).
    rewrite guarded_run. unfold listing_body. rewrite fetch_bind. cbv zeta.
    change {| url := _; params := []; timeout := 10 |} with (listing_request path).
    rewrite Hup. unfold answered at 1. cbn [status_error body app].
    destruct Hdoc as [-> | [[b ->] | [n ->]]]; reflexivity. }
  apply Forall_cons; [apply (H "/topstories.json" top_record) |].
  apply Forall_cons; [apply (H "/topstories.json" top_record) |].
  apply Forall_cons; [apply (H "/newstories.json" new_record) |].
  apply Forall_cons; [apply (H "/newstories.json" new_record) |].
  apply Forall_nil.
Qed.

(** The top stories of a service that answers [null] to everything. *)
Lemma listing_of_wrong_type_is_an_error_witness :
  run (get_top_stories 10) (constant_upstream JNull)
  = (inr (error_payload "Unexpected error: 'NoneType' object is not subscriptable"),
     [(listing_request "/topstories.json", answered JNull)]).
Proof.
  assert (Hdoc : JNull = JNull \/ (exists b, JNull = JBool b) \/ (exists n, JNull = JInt n))
    by (left; reflexivity).
  apply (Forall_inv (listing_of_wrong_type_is_an_error (constant_upstream JNull) 10 JNull Hdoc)).
  reflexivity.
Defined.

(** X6.  For every upstream and every limit: when the listing is the empty
    array, the listing operation returns the empty array after that single
    exchange. *)
Theorem empty_listing_gives_empty_array (up : Upstream) (limit : Z) :
  Forall (fun listing : string * (Z -> M JsonText) =>
            let (path, op) := listing in
            up [] (listing_request path) = answered (JList []) ->
            run (op limit) up
            = (inr (json_dumps (JList []) 2), [(listing_request path, answered (JList []))]))
    [("/topstories.json", get_top_stories); ("/topstories.json", get_top_stories_http);
     ("/newstories.json", get_new_stories); ("/newstories.json", get_new_stories_http)].
Proof.
  assert (H : forall path record,
            up [] (listing_request path) = answered (JList []) ->
            run (listing_op path record limit) up
            = (inr (json_dumps (JList []) 2),
               [(listing_request path, answered (JList []))])).
  { intros path record Hup. unfold run.
    rewrite (listing_op_run path record (fun _ => JNull) up [] limit Hup).
    - now rewrite firstn_nil.
    - rewrite firstn_nil. intros log story_id [].
    - rewrite firstn_nil. intros story_id []. }
  apply Forall_cons; [apply (H "/topstories.json" top_record) |].
  apply Forall_cons; [apply (H "/topstories.json" top_record) |].
  apply Forall_cons; [apply (H "/newstories.json" new_record) |].
  apply Forall_cons; [apply (H "/newstories.json" new_record) |].
  apply Forall_nil.
Qed.

(** The newest stories of a service that answers [[]] to everything. *)
Lemma empty_listing_gives_empty_array_witness :
  run (get_new_stories 30) (constant_upstream (JList []))
  = (inr (json_dumps (JList []) 2), [(listing_request "/newstories.json", answered (JList []))]).
Proof.
  pose proof (empty_listing_gives_empty_array (constant_upstream (JList [])) 30) as H.
  apply Forall_inv_tail, Forall_inv_tail, Forall_inv in H. apply H. reflexivity.
Defined.

(** X7.  For every upstream: when the search answer is an object without a
    ["hits"] key, [search_stories] returns the empty array. *)
Theorem search_without_hits_gives_empty_array (up : Upstream) (query : string) (limit : Z)
    (data : dict)
    (Hup : up [] (search_request query (Z.min (Z.max limit 1) 20)) = answered (JDict data))
    (Hhits : dict_has data "hits" = false) :
  Forall (fun op : string -> Z -> M JsonText =>
            run (op query limit) up
            = (inr (json_dumps (JList []) 2),
               [(search_request query (Z.min (Z.max limit 1) 20), answered (JDict data))]))
    [search_stories; search_stories_http].
Proof.
  assert (H : run (search_op query limit) up
              = (inr (json_dumps (JList []) 2),
                 [(search_request query (Z.min (Z.max limit 1) 20), answered (JDict data))])).
  { unfold run. apply (search_op_run query limit up data [] Hup).
    now apply dict_get_absent. }
  repeat (apply Forall_cons; [exact H |]). apply Forall_nil.
Qed.

(** A search on a service that answers [{}] to everything. *)
Lemma search_without_hits_gives_empty_array_witness :
  run (search_stories "rust" 3) (constant_upstream (JDict []))
  = (inr (json_dumps (JList []) 2), [(search_request "rust" 3, answered (JDict []))]).
Proof.
  assert (Hup : constant_upstream (JDict []) [] (search_request "rust" (Z.min (Z.max 3 1) 20))
                = answered (JDict [])) by reflexivity.
  assert (Hhits : dict_has [] "hits" = false) by reflexivity.
  exact (Forall_inv (search_without_hits_gives_empty_array
                       (constant_upstream (JDict [])) "rust" 3 [] Hup Hhits)).
Defined.

(** ** A larger limit extends the result *)

Lemma firstn_split_le {A : Type} (a b : nat) (l : list A) :
  (a <= b)%nat -> firstn b l = (firstn a l ++ skipn a (firstn b l))%list.
Proof.
  intros Hab. rewrite <- (firstn_skipn a (firstn b l)) at 1.
  rewrite firstn_firstn. now replace (Nat.min a b) with a by lia.
Qed.

(** X8.  Against an upstream that serves the array [ids] as the listing and
    an item (null or an object) for each of its first ids, the result of a
    listing operation for a limit is a prefix of its result for any larger
    limit. *)
Theorem larger_limit_extends_listing (up : Upstream) (ids : list json)
    (item_of : json -> json) (small large : Z)
    (Hle : small <= large)
    (Hserve : forall log story_id, In story_id (firstn (listing_count large) ids) ->
                up log (item_request story_id) = answered (item_of story_id))
    (Hshape : forall story_id, In story_id (firstn (listing_count large) ids) ->
                item_of story_id = JNull \/ exists d, item_of story_id = JDict d) :
  Forall (fun listing : string * (Z -> M JsonText) =>
            let (path, op) := listing in
            up [] (listing_request path) = answered (JList ids) ->
            exists stories more,
              fst (run (op small) up) = inr (json_dumps (JList stories) 2) /\
              fst (run (op large) up) = inr (json_dumps (JList (stories ++ more)) 2))
    [("/topstories.json", get_top_stories); ("/topstories.json", get_top_stories_http);
     ("/newstories.json", get_new_stories); ("/newstories.json", get_new_stories_http)].
Proof.
  assert (Hcount : (listing_count small <= listing_count large)%nat)
    by (unfold listing_count; lia).
  pose proof (firstn_split_le (listing_count small) (listing_count large) ids Hcount) as Hsplit.
  assert (Hshape' : forall story_id, In story_id (firstn (listing_count large) ids) ->
            py_truthy (item_of story_id) = false \/ exists d, item_of story_id = JDict d).
  { intros story_id Hin. destruct (Hshape story_id Hin) as [-> | Hd];
      [left; reflexivity | right; exact Hd]. }
  assert (Hsub : forall story_id, In story_id (firstn (listing_count small) ids) ->
            In story_id (firstn (listing_count large) ids)).
  { intros story_id Hin. rewrite Hsplit. apply in_or_app. now left. }
  assert (H : forall path record,
            up [] (listing_request path) = answered (JList ids) ->
            exists stories more,
              fst (run (listing_op path record small) up)
              = inr (json_dumps (JList stories) 2) /\
              fst (run (listing_op path record large) up)
              = inr (json_dumps (JList (stories ++ more)) 2)).
  { intros path record Hup. unfold run.
    rewrite (listing_op_run path record item_of up ids small Hup);
      [| intros log i Hi; apply Hserve; now apply Hsub
       | intros i Hi; apply Hshape'; now apply Hsub].
    rewrite (listing_op_run path record item_of up ids large Hup Hserve Hshape').
    cbn [fst]. eexists. eexists. split; [reflexivity |].
    rewrite Hsplit at 1. rewrite map_app, flat_map_app. reflexivity. }
  apply Forall_cons; [apply (H "/topstories.json" top_record) |].
  apply Forall_cons; [apply (H "/topstories.json" top_record) |].
  apply Forall_cons; [apply (H "/newstories.json" new_record) |].
  apply Forall_cons; [apply (H "/newstories.json" new_record) |].
  apply Forall_nil.
Qed.

(** Two and five top stories from the sample items API. *)
Lemma larger_limit_extends_listing_witness :
  exists stories more,
    fst (run (get_top_stories 2) sample_upstream) = inr (json_dumps (JList stories) 2) /\
    fst (run (get_top_stories 5) sample_upstream)
    = inr (json_dumps (JList (stories ++ more)) 2).
Proof.
  assert (Hle : 2 <= 5) by lia.
  assert (Hserve : forall log story_id,
            In story_id (firstn (listing_count 5) (map JInt [1; 2; 3; 4; 5; 6])) ->
            sample_upstream log (item_request story_id) = answered (sample_item_of story_id)).
  { intros log story_id Hin.
    repeat (destruct Hin as [<- | Hin]; [reflexivity |]). destruct Hin. }
  assert (Hshape : forall story_id,
            In story_id (firstn (listing_count 5) (map JInt [1; 2; 3; 4; 5; 6])) ->
            sample_item_of story_id = JNull \/ exists d, sample_item_of story_id = JDict d).
  { intros story_id Hin.
    repeat (destruct Hin as [<- | Hin]; [right; eexists; reflexivity |]). destruct Hin. }
  apply (Forall_inv (larger_limit_extends_listing sample_upstream _ sample_item_of 2 5
                       Hle Hserve Hshape)).
  reflexivity.
Defined.

(** ** The shape of the results *)

Lemma search_op_inr (query : string) (limit : Z) (up : Upstream) (stories : list json) :
  fst (run (search_op query limit) up) = inr (json_dumps (JList stories) 2) ->
  exists hits, stories = map hit_record hits.
Proof.
  unfold run. intros H.
  destruct (search_op query limit up []) as [res log] eqn:Hrun. cbn [fst] in H. subst res.
  change (search_op query limit)
    with (guarded (search_body query (Z.min (Z.max limit 1) 20))) in Hrun.
  apply guarded_inr_list in Hrun. apply search_body_inr in Hrun.
  destruct Hrun as [data [ds [_ [H2 _]]]]. inversion H2. now exists ds.
Qed.

(** X9.  For every upstream, every entry of an array returned by an
    operation has the keys of its kind, in this order: eight keys for
    [get_top_stories] and [search_stories], the same without [comments] for
    [get_new_stories]. *)
Theorem entries_have_fixed_keys (up : Upstream) (limit : Z) (stories : list json) :
  Forall (fun listing : list string * (Z -> M JsonText) =>
            let (expected, op) := listing in
            fst (run (op limit) up) = inr (json_dumps (JList stories) 2) ->
            Forall (fun entry => keys entry = expected) stories)
    [(["id"; "title"; "url"; "score"; "author"; "comments"; "time"; "time_iso"],
      get_top_stories);
     (["id"; "title"; "url"; "score"; "author"; "comments"; "time"; "time_iso"],
      get_top_stories_http);
     (["id"; "title"; "url"; "score"; "author"; "time"; "time_iso"], get_new_stories);
     (["id"; "title"; "url"; "score"; "author"; "time"; "time_iso"], get_new_stories_http)] /\
  Forall (fun op : string -> Z -> M JsonText =>
            forall query,
              fst (run (op query limit) up) = inr (json_dumps (JList stories) 2) ->
              Forall (fun entry =>
                        keys entry
                        = ["id"; "title"; "url"; "score"; "author"; "comments"; "time";
                           "time_iso"])
                     stories)
    [search_stories; search_stories_http].
Proof.
  assert (H : forall path record expected,
            (forall story_id d, keys (record story_id d) = expected) ->
            fst (run (listing_op path record limit) up) = inr (json_dumps (JList stories) 2) ->
            Forall (fun entry => keys entry = expected) stories).
  { intros path record expected Hkeys Hres.
    apply listing_op_inr in Hres. destruct Hres as [listing [fetched [_ [_ [_ ->]]]]].
    apply Forall_forall. intros entry Hin. apply in_selected in Hin.
    destruct Hin as [story_id [d [_ [_ ->]]]]. apply Hkeys. }
  split.
  - apply Forall_cons; [apply (H "/topstories.json" top_record); reflexivity |].
    apply Forall_cons; [apply (H "/topstories.json" top_record); reflexivity |].
    apply Forall_cons; [apply (H "/newstories.json" new_record); reflexivity |].
    apply Forall_cons; [apply (H "/newstories.json" new_record); reflexivity |].
    apply Forall_nil.
  - assert (Hs : forall query,
              fst (run (search_op query limit) up) = inr (json_dumps (JList stories) 2) ->
              Forall (fun entry =>
                        keys entry
                        = ["id"; "title"; "url"; "score"; "author"; "comments"; "time";
                           "time_iso"])
                     stories).
    { intros query Hres. apply search_op_inr in Hres. destruct Hres as [hits ->].
      apply Forall_forall. intros entry Hin. apply in_map_iff in Hin.
      destruct Hin as [hit [<- _]]. reflexivity. }
    repeat (apply Forall_cons; [exact Hs |]). apply Forall_nil.
Qed.

(** The two newest stories of the sample items API. *)
Lemma entries_have_fixed_keys_witness :
  Forall (fun entry => keys entry = ["id"; "title"; "url"; "score"; "author"; "time"; "time_iso"])
    (map (fun i => new_record (JInt i) (fields_of (sample_item i))) [6; 5]).
Proof.
  destruct (entries_have_fixed_keys sample_upstream 2
              (map (fun i => new_record (JInt i) (fields_of (sample_item i))) [6; 5]))
    as [H _].
  apply Forall_inv_tail, Forall_inv_tail, Forall_inv in H. apply H. reflexivity.
Defined.

(** X10.  For every raw item, whatever the type of its [time], the
    [time_iso] of a listing record is either [None], when [time] is absent or
    falsy, or the non-empty string [str(time)], when it is truthy: it is
    never a number and never the empty string. *)
Theorem time_iso_is_none_or_text (story_id : json) (raw : dict) :
  let time := dict_get raw "time" JNull in
  field "time_iso" (top_record story_id raw) = field "time_iso" (new_record story_id raw) /\
  ((py_truthy time = false /\ field "time_iso" (top_record story_id raw) = JNull) \/
   (py_truthy time = true /\ py_str time <> "" /\
    field "time_iso" (top_record story_id raw) = JStr (py_str time))).
Proof.
  cbv zeta. split; [reflexivity |].
  change (field "time_iso" (top_record story_id raw))
    with (time_iso_of (dict_get raw "time" JNull)).
  destruct (py_truthy (dict_get raw "time" JNull)) eqn:Ht.
  - right. split; [reflexivity |]. split; [now apply py_str_nonempty |].
    unfold time_iso_of, py_and, py_or. rewrite Ht.
    assert (Hs : py_truthy (JStr (py_str (dict_get raw "time" JNull))) = true).
    { cbn. apply negb_true_iff, String.eqb_neq. now apply py_str_nonempty. }
    now rewrite Hs.
  - left. split; [reflexivity |]. now apply time_iso_of_falsy.
Qed.

(** ** Story ids and request URLs *)

Lemma append_list_ascii (a b : string) :
  list_ascii_of_string (a ++ b) = (list_ascii_of_string a ++ list_ascii_of_string b)%list.
Proof. induction a as [| c rest IH]; cbn; [reflexivity | now rewrite IH]. Qed.

Lemma append_inv_tail (a b s : string) : a ++ s = b ++ s -> a = b.
Proof.
  intros H. apply (f_equal list_ascii_of_string) in H.
  rewrite !append_list_ascii in H. apply app_inv_tail in H.
  rewrite <- (string_of_list_ascii_of_string a), <- (string_of_list_ascii_of_string b).
  now rewrite H.
Qed.

Lemma append_inv_head (s a b : string) : s ++ a = s ++ b -> a = b.
Proof.
  induction s as [| c rest IH]; cbn; intros H; [exact H |].
  injection H as H. now apply IH.
Qed.

(** The decimal text of an id reads back as the id. *)
Lemma str_int_reads_back (n : Z) :
  option_map Z.of_int (NilZero.int_of_string (str_int n)) = Some n.
Proof.
  unfold str_int. rewrite NilZero.isi.
  - cbn. now rewrite DecimalZ.of_to.
  - destruct n; cbn; try discriminate.
    intros H. injection H as H. now apply DecimalPos.Unsigned.to_uint_nonnil in H.
  - destruct n; cbn; try discriminate.
    intros H. injection H as H. now apply DecimalPos.Unsigned.to_uint_nonnil in H.
Qed.

Lemma str_int_inj (a b : Z) : str_int a = str_int b -> a = b.
Proof.
  intros H. pose proof (str_int_reads_back a) as Ha. rewrite H, str_int_reads_back in Ha.
  now injection Ha.
Qed.

(** X11.  The id that [get_story] and the listing loop put in the URL of an
    item is its decimal text, which reads back as the id; so two story ids
    that are fetched at the same URL are equal, in [get_story] and in the
    listing loop. *)
Theorem story_ids_have_distinct_urls (a b : Z) :
  option_map Z.of_int (NilZero.int_of_string (str_int a)) = Some a /\
  (url (story_request a) = url (story_request b) -> a = b) /\
  (url (item_request (JInt a)) = url (item_request (JInt b)) -> a = b).
Proof.
  split; [apply str_int_reads_back |].
  assert (H : forall x y, HN_API_BASE ++ "/item/" ++ x ++ ".json"
                          = HN_API_BASE ++ "/item/" ++ y ++ ".json" -> x = y).
  { intros x y H. apply append_inv_head, append_inv_head in H. now apply append_inv_tail in H. }
  split; intros Hurl; apply str_int_inj, H; exact Hurl.
Qed.

(** The URL of item 8863. *)
Lemma story_ids_have_distinct_urls_witness :
  url (story_request 8863) = "https://hacker-news.firebaseio.com/v0/item/8863.json" /\
  8863 = 8863.
Proof.
  split; [reflexivity |].
  apply (story_ids_have_distinct_urls 8863 8863). reflexivity.
Defined.

(** ** Every result is the data or an error document *)

Lemma story_body_inr (story_id : Z) (up : Upstream) (log log' : list Event) (text : JsonText) :
  story_body story_id up log = (inr text, log') ->
  (exists msg, text = error_payload msg) \/ (exists d, text = json_dumps (single_record story_id d) 2).
Proof.
  unfold story_body. intros H. apply fetch_bind_inr in H. destruct H as [doc [_ H]].
  destruct (py_truthy doc); cbn [negb] in H.
  - unfold bind, with_get in H. destruct doc; try discriminate.
    unfold ret in H. destruct (py_eq_str _ _); cbn [negb] in H; inversion H.
    + right. now eexists.
    + left. now eexists.
  - unfold ret in H. inversion H. left. now eexists.
Qed.

(** X12.  For every call and every upstream, the result of an operation is
    serialised with indent 2 and is either the error document
    [{"error": message}] or the data of the operation: an array for the
    listing and search operations, the single-story record for
    [get_story]. *)
Theorem result_is_data_or_error (c : Call) (up : Upstream) :
  Forall (fun dispatch : Call -> M JsonText =>
            (exists msg, fst (run (dispatch c) up) = inr (error_payload msg)) \/
            match c with
            | Story story_id =>
                exists d, fst (run (dispatch c) up)
                          = inr (json_dumps (single_record story_id d) 2)
            | _ => exists stories, fst (run (dispatch c) up) = inr (json_dumps (JList stories) 2)
            end)
    [tool; http].
Proof.
  assert (H : (exists msg, fst (guarded (body_of c) up []) = inr (error_payload msg)) \/
            match c with
            | Story story_id =>
                exists d, fst (guarded (body_of c) up [])
                          = inr (json_dumps (single_record story_id d) 2)
            | _ => exists stories,
                     fst (guarded (body_of c) up []) = inr (json_dumps (JList stories) 2)
            end).
  { rewrite guarded_run.
    destruct (body_of c up []) as [[e | text] log] eqn:Hbody; cbn [fst].
    - left. now eexists.
    - destruct c; cbn [body_of] in Hbody.
      + apply listing_body_inr in Hbody. destruct Hbody as [l [f [_ [_ [_ ->]]]]].
        right. now eexists.
      + apply listing_body_inr in Hbody. destruct Hbody as [l [f [_ [_ [_ ->]]]]].
        right. now eexists.
      + apply story_body_inr in Hbody. destruct Hbody as [[msg ->] | [d ->]].
        * left. now eexists.
        * right. now eexists.
      + apply search_body_inr in Hbody. destruct Hbody as [data [ds [_ [-> _]]]].
        right. now eexists. }
  unfold run.
  apply Forall_cons; [rewrite tool_guarded; exact H |].
  apply Forall_cons; [rewrite http_guarded; exact H |].
  apply Forall_nil.
Qed.

(** * The HTTP endpoint *)

(** ** The called functions at arguments of the declared types *)

Lemma py_clamp_int (n hi : Z) (k : json -> M JsonText) :
  (limit <- py_max (JInt n) 1 ;; limit <- py_min limit hi ;; k limit)
  = k (JInt (Z.min (Z.max n 1) hi)).
Proof.
  unfold py_max, py_min. cbn [int_value].
  destruct (1 >? n) eqn:E1.
  - apply Z.gtb_lt in E1. unfold bind at 1. unfold ret at 1. cbn [int_value].
    destruct (hi <? 1) eqn:E2.
    + apply Z.ltb_lt in E2. replace (Z.min (Z.max n 1) hi) with hi by lia. reflexivity.
    + apply Z.ltb_ge in E2. replace (Z.min (Z.max n 1) hi) with 1 by lia. reflexivity.
  - assert (Hn : 1 <= n).
    { destruct (Z.gtb_spec 1 n) as [H | H]; [discriminate | exact H]. }
    unfold bind at 1. unfold ret at 1. cbn [int_value].
    destruct (hi <? n) eqn:E2.
    + apply Z.ltb_lt in E2. replace (Z.min (Z.max n 1) hi) with hi by lia. reflexivity.
    + apply Z.ltb_ge in E2. replace (Z.min (Z.max n 1) hi) with n by lia. reflexivity.
Qed.

Lemma listing_call_int (path : string) (record : json -> dict -> json) (n : Z) :
  listing_call path record (JInt n) = listing_op path record n.
Proof.
  unfold listing_call, listing_op. f_equal.
  rewrite (py_clamp_int n 30
             (fun limit =>
                response <- httpx_get (HN_API_BASE ++ path) [] 10 ;;
                raise_for_status response ;;;
                listing <- response_json response ;;
                story_ids <- py_slice_to_value listing limit ;;
                ids <- py_iter story_ids ;;
                stories <- for_each ids (item_step record) [] ;;
                ret (json_dumps (JList stories) 2))).
  reflexivity.
Qed.

Lemma get_story_http_call_int (n : Z) : get_story_http_call (JInt n) = get_story_http n.
Proof. reflexivity. Qed.

Lemma search_stories_http_call_int (query : string) (n : Z) :
  search_stories_http_call (JStr query) (JInt n) = search_stories_http query n.
Proof.
  unfold search_stories_http_call, search_stories_http.
  match goal with
  | |- try_except ?a _ _ = try_except ?b _ _ => cut (a = b); [intros ->; reflexivity |]
  end.
  exact (py_clamp_int n 20
             (fun limit =>
                let search_url := "https://hn.algolia.com/api/v1/search" in
                let params := [("query", JStr query); ("tags", JStr "story");
                               ("hitsPerPage", limit)] in
                response <- httpx_get search_url params 10 ;;
                raise_for_status response ;;;
                data <- response_json response ;;
                data <- with_get data ;;
                hits <- py_iter (dict_get data "hits" (JList [])) ;;
                stories <- for_each hits hit_step [] ;;
                ret (json_dumps (JList stories) 2))).
Qed.

Lemma bind_keywords_ok (fname : string) (names required : list string) (kwargs : dict) :
  first_unexpected names kwargs = None ->
  first_missing required kwargs = None ->
  bind_keywords fname names required (JDict kwargs) = ret kwargs.
Proof. intros H1 H2. unfold bind_keywords. now rewrite H1, H2. Qed.

Lemma try_except_inr {A : Type} (body : M A) (h1 h2 : string -> M A)
    (up : Upstream) (log log' : list Event) (x : A) :
  body up log = (inr x, log') -> try_except body h1 h2 up log = (inr x, log').
Proof. intros H. unfold try_except. now rewrite H. Qed.

Ltac decide_names :=
  repeat match goal with
         | |- context [py_eq_str (JStr ?a) ?b] =>
             let r := eval vm_compute in (py_eq_str (JStr a) b) in
             change (py_eq_str (JStr a) b) with r; cbv iota
         end.

(** The part of the endpoint that runs for the method [tools/call] on
    parameters that are an object. *)
Lemma mcp_endpoint_tools_call (request params : dict) :
  dict_get request "method" JNull = JStr "tools/call" ->
  dict_get request "params" (JDict []) = JDict params ->
  mcp_endpoint request
  = try_except
      (let tool_name := dict_get params "name" JNull in
       let tool_args := dict_get params "arguments" (JDict []) in
       if py_eq_str tool_name "get_top_stories" then
         kwargs <- bind_keywords "get_top_stories_http" ["limit"] [] tool_args ;;
         result <- get_top_stories_http_call (dict_get kwargs "limit" (JInt 10)) ;;
         ret {| content := ToolContent (dict_get request "id" JNull) result;
                status_code := 200 |}
       else if py_eq_str tool_name "get_new_stories" then
         kwargs <- bind_keywords "get_new_stories_http" ["limit"] [] tool_args ;;
         result <- get_new_stories_http_call (dict_get kwargs "limit" (JInt 10)) ;;
         ret {| content := ToolContent (dict_get request "id" JNull) result;
                status_code := 200 |}
       else if py_eq_str tool_name "get_story" then
         kwargs <- bind_keywords "get_story_http" ["story_id"] ["story_id"] tool_args ;;
         result <- get_story_http_call (dict_get kwargs "story_id" JNull) ;;
         ret {| content := ToolContent (dict_get request "id" JNull) result;
                status_code := 200 |}
       else if py_eq_str tool_name "search_stories" then
         kwargs <- bind_keywords "search_stories_http" ["query"; "limit"] ["query"] tool_args ;;
         result <- search_stories_http_call (dict_get kwargs "query" JNull)
                                            (dict_get kwargs "limit" (JInt 10)) ;;
         ret {| content := ToolContent (dict_get request "id" JNull) result;
                status_code := 200 |}
       else
         ret {| content :=
                  ErrorContent (dict_get request "id" JNull) (-32601)
                    ("Tool '" ++ py_str tool_name ++ "' not found");
                status_code := 200 |})
      (fun e => ret {| content :=
                         ErrorContent (dict_get request "id" JNull) (-32603)
                           ("Internal error: " ++ e);
                       status_code := 500 |})
      (fun e => ret {| content :=
                         ErrorContent (dict_get request "id" JNull) (-32603)
                           ("Internal error: " ++ e);
                       status_code := 500 |}).
Proof.
  intros Hmethod Hparams. unfold mcp_endpoint. rewrite Hmethod, Hparams. reflexivity.
Qed.

Lemma call_then_reply (m : M JsonText) (id : json) (up : Upstream) (log log' : list Event)
    (text : JsonText) :
  m up log = (inr text, log') ->
  (result <- m ;; ret {| content := ToolContent id result; status_code := 200 |}) up log
  = (inr {| content := ToolContent id text; status_code := 200 |}, log').
Proof. intros H. unfold bind. now rewrite H. Qed.



(** ** Replies *)

Lemma try_except_ret_total {A : Type} (body : M A) (f g : string -> A)
    (up : Upstream) (log : list Event) :
  exists x, fst (try_except body (fun e => ret (f e)) (fun e => ret (g e)) up log) = inr x.
Proof.
  unfold try_except. destruct (body up log) as [[e | x] log']; [| now eexists].
  destruct e; unfold ret; now eexists.
Qed.

Lemma bind_keywords_pure (fname : string) (names required : list string) (tool_args : json)
    (up : Upstream) (log : list Event) :
  snd (bind_keywords fname names required tool_args up log) = log.
Proof.
  unfold bind_keywords. destruct tool_args; try reflexivity.
  destruct (first_unexpected names fields); [reflexivity |].
  destruct (first_missing required fields); reflexivity.
Qed.

(** A branch of the endpoint that binds the arguments and calls a function
    that always returns: it raises before any exchange, or replies with the
    text of the function. *)
Lemma tool_branch (fname : string) (names required : list string) (tool_args id : json)
    (call : dict -> M JsonText) (up : Upstream) :
  (forall kwargs, exists text, fst (call kwargs up []) = inr text) ->
  (exists e,
     (kwargs <- bind_keywords fname names required tool_args ;;
      result <- call kwargs ;;
      ret {| content := ToolContent id result; status_code := 200 |}) up []
     = (inl e, [])) \/
  (exists text log,
     (kwargs <- bind_keywords fname names required tool_args ;;
      result <- call kwargs ;;
      ret {| content := ToolContent id result; status_code := 200 |}) up []
     = (inr {| content := ToolContent id text; status_code := 200 |}, log)).
Proof.
  intros Hcall. unfold bind.
  pose proof (bind_keywords_pure fname names required tool_args up []) as Hpure.
  destruct (bind_keywords fname names required tool_args up []) as [[e | kwargs] log0];
    cbn [snd] in Hpure; subst log0.
  - left. now exists e.
  - right. destruct (Hcall kwargs) as [text Htext].
    destruct (call kwargs up []) as [[e | t] log1]; cbn [fst] in Htext; [discriminate |].
    injection Htext as Ht. subst. eexists. eexists. reflexivity.
Qed.

Lemma try_except_one_handler {A : Type} (body : M A) (h : string -> A)
    (up : Upstream) (log : list Event) :
  try_except body (fun e => ret (h e)) (fun e => ret (h e)) up log
  = match body up log with
    | (inr x, log') => (inr x, log')
    | (inl e, log') => (inr (h (str_exc e)), log')
    end.
Proof.
  unfold try_except. destruct (body up log) as [[e | x] log']; [| reflexivity].
  now destruct e.
Qed.

Lemma tool_branch_outcome (request : dict) (fname : string) (names required : list string)
    (tool_args : json) (call : dict -> M JsonText) (up : Upstream) :
  (forall kwargs, exists text, fst (call kwargs up []) = inr text) ->
  endpoint_outcome request
    ((kwargs <- bind_keywords fname names required tool_args ;;
      result <- call kwargs ;;
      ret {| content := ToolContent (dict_get request "id" JNull) result;
             status_code := 200 |}) up []).
Proof.
  intros Hcall.
  destruct (tool_branch fname names required tool_args (dict_get request "id" JNull)
              call up Hcall) as [[e ->] | [text [log ->]]]; unfold endpoint_outcome; cbn.
  - reflexivity.
  - repeat split. now left.
Qed.

Lemma endpoint_body (request : dict) (up : Upstream) :
  exists body,
    mcp_endpoint request
    = try_except body
        (fun e => ret {| content := ErrorContent (dict_get request "id" JNull) (-32603)
                                      ("Internal error: " ++ e);
                         status_code := 500 |})
        (fun e => ret {| content := ErrorContent (dict_get request "id" JNull) (-32603)
                                      ("Internal error: " ++ e);
                         status_code := 500 |}) /\
    endpoint_outcome request (body up []).
Proof.
  eexists. split; [reflexivity |].
  destruct (py_eq_str (dict_get request "method" JNull) "initialize").
  { unfold endpoint_outcome, ret; cbn. repeat split. now left. }
  destruct (py_eq_str (dict_get request "method" JNull) "tools/list").
  { unfold endpoint_outcome, ret; cbn. repeat split. now left. }
  destruct (py_eq_str (dict_get request "method" JNull) "tools/call").
  2: { unfold endpoint_outcome, ret; cbn. repeat split. now right. }
  unfold bind at 1. unfold with_get.
  destruct (dict_get request "params" (JDict [])) as [| b | n | s | items | params];
    try (unfold endpoint_outcome, raise; reflexivity).
  unfold ret at 1. unfold bind at 1. unfold ret at 1. cbv zeta.
  destruct (py_eq_str (dict_get params "name" JNull) "get_top_stories").
  { apply tool_branch_outcome. intros kwargs. apply try_except_ret_total. }
  destruct (py_eq_str (dict_get params "name" JNull) "get_new_stories").
  { apply tool_branch_outcome. intros kwargs. apply try_except_ret_total. }
  destruct (py_eq_str (dict_get params "name" JNull) "get_story").
  { apply (tool_branch_outcome request "get_story_http" ["story_id"] ["story_id"] _
             (fun kwargs => get_story_http_call (dict_get kwargs "story_id" JNull))).
    intros kwargs. apply try_except_ret_total. }
  destruct (py_eq_str (dict_get params "name" JNull) "search_stories").
  { apply (tool_branch_outcome request "search_stories_http" ["query"; "limit"] ["query"] _
             (fun kwargs => search_stories_http_call (dict_get kwargs "query" JNull)
                                                     (dict_get kwargs "limit" (JInt 10)))).
    intros kwargs. apply try_except_ret_total. }
  unfold endpoint_outcome, ret; cbn. repeat split. now right.
Qed.


(** A known tool whose arguments bind. *)
Lemma endpoint_known_tool (request params kwargs : dict) (c : Call) (up : Upstream) :
  dict_get request "method" JNull = JStr "tools/call" ->
  dict_get request "params" (JDict []) = JDict params ->
  dict_get params "name" JNull = JStr (tool_name c) ->
  dict_get params "arguments" (JDict []) = JDict kwargs ->
  first_unexpected (parameters c) kwargs = None ->
  first_missing (required_parameters c) kwargs = None ->
  run (mcp_endpoint request) up
  = match run (match c with
               | TopStories _ => get_top_stories_http_call (dict_get kwargs "limit" (JInt 10))
               | NewStories _ => get_new_stories_http_call (dict_get kwargs "limit" (JInt 10))
               | Story _ => get_story_http_call (dict_get kwargs "story_id" JNull)
               | Search _ _ =>
                   search_stories_http_call (dict_get kwargs "query" JNull)
                                            (dict_get kwargs "limit" (JInt 10))
               end) up with
    | (inr text, log) =>
        (inr {| content := ToolContent (dict_get request "id" JNull) text;
                status_code := 200 |}, log)
    | (inl e, log) =>
        (inr {| content := ErrorContent (dict_get request "id" JNull) (-32603)
                             ("Internal error: " ++ str_exc e);
                status_code := 500 |}, log)
    end.
Proof.
  intros Hmethod Hparams Hname Hargs Hunexp Hmiss.
  unfold run. rewrite (mcp_endpoint_tools_call request params Hmethod Hparams).
  rewrite (try_except_one_handler _
             (fun e => {| content := ErrorContent (dict_get request "id" JNull) (-32603)
                                       ("Internal error: " ++ e);
                          status_code := 500 |})).
  cbv zeta. rewrite Hname, Hargs.
  destruct c; cbn [tool_name parameters required_parameters] in *; decide_names;
    rewrite (bind_keywords_ok _ _ _ _ Hunexp Hmiss); unfold bind at 1; unfold ret at 1;
    unfold bind;
    match goal with
    | |- context [?call up []] =>
        match type of (call up []) with
        | ((Exception + JsonText) * list Event)%type =>
            destruct (call up []) as [[e | text] log]
        end
    end; reflexivity.
Qed.

(** A known tool whose arguments do not bind, or parameters that are no
    object. *)
Lemma endpoint_unbound (request params : dict) (c : Call) (up : Upstream) (tool_args : json) :
  dict_get request "method" JNull = JStr "tools/call" ->
  dict_get request "params" (JDict []) = JDict params ->
  dict_get params "name" JNull = JStr (tool_name c) ->
  dict_get params "arguments" (JDict []) = tool_args ->
  (forall kwargs, tool_args = JDict kwargs ->
     first_unexpected (parameters c) kwargs <> None \/
     first_missing (required_parameters c) kwargs <> None) ->
  exists msg,
    run (mcp_endpoint request) up
    = (inr {| content := ErrorContent (dict_get request "id" JNull) (-32603) msg;
              status_code := 500 |}, []).
Proof.
  intros Hmethod Hparams Hname Hargs Hbad.
  unfold run. rewrite (mcp_endpoint_tools_call request params Hmethod Hparams).
  rewrite (try_except_one_handler _
             (fun e => {| content := ErrorContent (dict_get request "id" JNull) (-32603)
                                       ("Internal error: " ++ e);
                          status_code := 500 |})).
  cbv zeta. rewrite Hname, Hargs.
  assert (Hbind : forall fname,
            exists e, bind_keywords fname (parameters c) (required_parameters c) tool_args up []
                      = (inl e, [])).
  { intros fname. unfold bind_keywords.
    destruct tool_args as [| b | n | s | items | kwargs]; try (eexists; reflexivity).
    destruct (Hbad kwargs eq_refl) as [H | H].
    - destruct (first_unexpected (parameters c) kwargs); [eexists; reflexivity |].
      now contradiction H.
    - destruct (first_unexpected (parameters c) kwargs); [eexists; reflexivity |].
      destruct (first_missing (required_parameters c) kwargs); [eexists; reflexivity |].
      now contradiction H. }
  destruct c; cbn [tool_name parameters required_parameters] in *; decide_names;
    unfold bind at 1;
    match goal with
    | |- context [bind_keywords ?f _ _ _ up []] => destruct (Hbind f) as [e ->]
    end; eexists; reflexivity.
Qed.





Lemma listing_call_wrong_type (path : string) (record : json -> dict -> json) (v : json)
    (up : Upstream) :
  int_value v = None ->
  run (listing_call path record v) up
  = (inr (error_payload ("Unexpected error: '>' not supported between instances of 'int' and '"
                           ++ type_name v ++ "'")), []).
Proof.
  intros Hv. unfold run, listing_call, try_except, bind at 1, py_max. now rewrite Hv.
Qed.

Lemma search_call_wrong_type (query v : json) (up : Upstream) :
  int_value v = None ->
  run (search_stories_http_call query v) up
  = (inr (error_payload ("Unexpected error: '>' not supported between instances of 'int' and '"
                           ++ type_name v ++ "'")), []).
Proof.
  intros Hv. unfold run, search_stories_http_call, try_except, bind at 1, py_max.
  now rewrite Hv.
Qed.



(** ** What [tools/list] declares *)

Lemma endpoint_known_tool_reply (request params : dict) (c : Call) (up : Upstream) :
  dict_get request "method" JNull = JStr "tools/call" ->
  dict_get request "params" (JDict []) = JDict params ->
  dict_get params "name" JNull = JStr (tool_name c) ->
  exists reply log,
    run (mcp_endpoint request) up = (inr reply, log) /\
    (status_code reply = 500 \/ exists text, content reply = ToolContent (dict_get request "id" JNull) text).
Proof.
  intros Hmethod Hparams Hname.
  assert (Hbad : forall tool_args,
            dict_get params "arguments" (JDict []) = tool_args ->
            (forall kwargs, tool_args = JDict kwargs ->
               first_unexpected (parameters c) kwargs <> None \/
               first_missing (required_parameters c) kwargs <> None) ->
            exists reply log,
              run (mcp_endpoint request) up = (inr reply, log) /\
              (status_code reply = 500 \/
               exists text, content reply = ToolContent (dict_get request "id" JNull) text)).
  { intros tool_args Hargs H.
    destruct (endpoint_unbound request params c up tool_args Hmethod Hparams Hname Hargs H)
      as [msg ->].
    eexists. eexists. split; [reflexivity |]. now left. }
  destruct (dict_get params "arguments" (JDict [])) as [| b | n | s | items | kwargs] eqn:Hargs;
    try (apply (Hbad _ eq_refl); intros k Hk; discriminate Hk).
  destruct (first_unexpected (parameters c) kwargs) eqn:Hunexp.
  { apply (Hbad _ eq_refl). intros k Hk. injection Hk as <-. left. rewrite Hunexp. discriminate. }
  destruct (first_missing (required_parameters c) kwargs) eqn:Hmiss.
  { apply (Hbad _ eq_refl). intros k Hk. injection Hk as <-. right. rewrite Hmiss. discriminate. }
  clear Hbad.
  rewrite (endpoint_known_tool request params kwargs c up Hmethod Hparams Hname Hargs
             Hunexp Hmiss).
  destruct (run (match c with TopStories _ => _ | _ => _ end) up) as [[e | text] log].
  - eexists. eexists. split; [reflexivity |]. now left.
  - eexists. eexists. split; [reflexivity |]. right. now eexists.
Qed.



(** X19.  The bounds and the default that [tools/list] declares for the
    [limit] of a tool are those of the code: for every limit, the listing
    functions run as for the limit clamped to the declared minimum and
    maximum, and [search_stories_http] asks for that many hits; the
    declared default is the limit used when none is given, 10. *)
Theorem declared_limits_are_the_clamps (limit lo hi : Z) :
  Forall (fun listing : string * (Z -> M JsonText) =>
            let (name, op) := listing in
            declared_limit name "minimum" = JInt lo ->
            declared_limit name "maximum" = JInt hi ->
            op limit = op (Z.min (Z.max limit lo) hi) /\
            (forall up, (List.length (snd (run (op limit) up)) <= 1 + Z.to_nat hi)%nat) /\
            declared_limit name "default" = JInt 10)
    [("get_top_stories", get_top_stories_http); ("get_new_stories", get_new_stories_http)] /\
  (declared_limit "search_stories" "minimum" = JInt lo ->
   declared_limit "search_stories" "maximum" = JInt hi ->
   (forall query up,
      map fst (snd (run (search_stories_http query limit) up))
      = [search_request query (Z.min (Z.max limit lo) hi)]) /\
   declared_limit "search_stories" "default" = JInt 10).
Proof.
  assert (H : forall path record,
            JInt 1 = JInt lo -> JInt 30 = JInt hi ->
            listing_op path record limit = listing_op path record (Z.min (Z.max limit lo) hi) /\
            (forall up, (List.length (snd (run (listing_op path record limit) up))
                         <= 1 + Z.to_nat hi)%nat) /\
            JInt 10 = JInt 10).
  { intros path record Hlo Hhi. injection Hlo as <-. injection Hhi as <-.
    split; [apply listing_op_clamped |]. split; [| reflexivity].
    intros up. pose proof (listing_op_length path record limit up). lia. }
  split.
  - apply Forall_cons; [apply (H "/topstories.json" top_record) |].
    apply Forall_cons; [apply (H "/newstories.json" new_record) |].
    apply Forall_nil.
  - intros Hlo Hhi. injection Hlo as <-. injection Hhi as <-.
    split; [| reflexivity]. intros query up. apply search_op_requests.
Qed.

(** The bounds declared for [search_stories] and a limit of 50. *)
Lemma declared_limits_are_the_clamps_witness :
  map fst (snd (run (search_stories_http "rust" 50) sample_upstream))
  = [search_request "rust" 20].
Proof.
  destruct (declared_limits_are_the_clamps 50 1 20) as [_ H].
  destruct H as [H _]; [reflexivity | reflexivity |].
  apply H.
Defined.
